(** * AssistantManager: the run poller and the conversation controller

    A shallow embedding of [src/main.py].  The program is a thin client of
    a hosted assistant service: every interesting step is a call to the
    remote service, to the tool registry, to the clock or to the terminal.
    The embedding therefore threads an explicit state through the methods
    of [AssistantManager]:

    - the outside world (remote service, clock, whatever the tools touch)
      is an abstract type [W]; the calls the program makes on it are the
      fields of the classes [Service] and [Tools];
    - the fields of [self] the methods read and write ([thread_id],
      [assistant.id]);
    - the persisted thread identifier of the thread store;
    - the trace of effects performed so far, one [event] per call, in
      program order.

    A Python exception of class [Exception] is a value [Raise e]; a method
    is a function [St -> result A * St], and [try ... except Exception]
    is [try_catch].  Interrupts (KeyboardInterrupt, SystemExit) are not
    instances of [Exception] and are outside the model. *)

From Stdlib Require Import String Ascii List ZArith Lia Bool.
Import ListNotations.
Open Scope string_scope.
Open Scope Z_scope.

(** ** Data *)

(** [str(e)] of a raised exception: the only thing the program reads. *)
Definition exn := string.

Inductive result (A : Type) : Type :=
| Ok (a : A)
| Raise (e : exn).
Arguments Ok {A} a.
Arguments Raise {A} e.

(** One entry of [run.required_action.submit_tool_outputs.tool_calls]. *)
Record ToolCall := mkToolCall {
  call_id : string;
  call_name : string;
  call_arguments : string
}.

(** One entry of the [tool_outputs] batch. *)
Record ToolOutput := mkToolOutput {
  tool_call_id : string;
  output : string
}.

(** The fields of [openai.types.beta.threads.Run] the program reads. *)
Record Run := mkRun {
  run_id : string;
  status : string;
  tool_calls : list ToolCall
}.

(** A content block of a message: [block.text.value] exists for a text
    block only; a block of another class (an image, a refusal) is kept
    with the name of its class, which the error message of a missing
    attribute shows. *)
Inductive ContentBlock :=
| TextBlock (value : string)
| OtherBlock (class_name : string).

Record Message := mkMessage {
  role : string;
  content : list ContentBlock
}.

(** ** The outside world *)

(** The remote service and the clock.  Every remote call may change the
    world and may raise. *)
Class Service (W : Type) := {
  now : W -> Z;                                   (* time.time() *)
  sleep : Z -> W -> W;                            (* time.sleep(secs) *)
  threads_create : W -> result string * W;        (* returns thread.id *)
  messages_create : string -> string -> W -> result unit * W;
  messages_list : string -> W -> result (list Message) * W;
  runs_create : string -> string -> W -> result Run * W;
  runs_list : string -> W -> result (list Run) * W;
  runs_cancel : string -> string -> W -> result unit * W;
  runs_retrieve : string -> string -> W -> result Run * W;
  runs_submit_tool_outputs :
    string -> string -> list ToolOutput -> W -> result Run * W
}.

(** [tools.handle_tool_calls]: runs local handlers, which may touch the
    world and may raise. *)
Class Tools (W : Type) := {
  handle_tool_calls : Run -> W -> result (list ToolOutput) * W
}.

(** ** Effects *)

Inductive event :=
| EvSleep (secs : Z)
| EvThreadsCreate (res : result string)
| EvMessagesCreate (thread user_input : string) (res : result unit)
| EvMessagesList (thread : string) (res : result (list Message))
| EvRunsCreate (thread assistant : string) (res : result Run)
| EvRunsList (thread : string) (res : result (list Run))
| EvRunsCancel (thread run : string) (res : result unit)
| EvRunsRetrieve (thread run : string) (res : result Run)
| EvSubmitToolOutputs (thread run : string) (outs : list ToolOutput)
                      (res : result Run)
| EvHandleToolCalls (r : Run) (res : result (list ToolOutput))
| EvClearThreadId
| EvSaveThreadId (thread : string)
| EvSystemMessage (msg : string)
| EvAssistantResponse (msg : string).

Record St (W : Type) := mkSt {
  world : W;
  thread_id : string;                 (* self.thread_id *)
  assistant_id : string;              (* self.assistant.id *)
  stored_thread_id : option string;   (* the thread store *)
  trace : list event
}.
Arguments mkSt {W}.
Arguments world {W}.
Arguments thread_id {W}.
Arguments assistant_id {W}.
Arguments stored_thread_id {W}.
Arguments trace {W}.

Definition M (W A : Type) : Type := St W -> result A * St W.

Definition ret {W A} (a : A) : M W A := fun st => (Ok a, st).

Definition raise {W A} (e : exn) : M W A := fun st => (Raise e, st).

Definition bind {W A B} (m : M W A) (k : A -> M W B) : M W B :=
  fun st =>
    match m st with
    | (Ok a, st') => k a st'
    | (Raise e, st') => (Raise e, st')
    end.

(** [try: m except Exception as e: h e] *)
Definition try_catch {W A} (m : M W A) (h : exn -> M W A) : M W A :=
  fun st =>
    match m st with
    | (Ok a, st') => (Ok a, st')
    | (Raise e, st') => h e st'
    end.

Declare Scope prog_scope.
Delimit Scope prog_scope with prog.
Notation "x <- m ;; k" := (bind m (fun x => k))
  (at level 100, m at next level, right associativity) : prog_scope.
Notation "m ;;; k" := (bind m (fun _ => k))
  (at level 100, right associativity) : prog_scope.
Open Scope prog_scope.

Definition log {W} (ev : event) (st : St W) : St W :=
  mkSt (world st) (thread_id st) (assistant_id st) (stored_thread_id st)
       (trace st ++ [ev]).

Definition set_world {W} (w : W) (st : St W) : St W :=
  mkSt w (thread_id st) (assistant_id st) (stored_thread_id st) (trace st).

(** A call on the world: run it, keep the new world, record the event. *)
Definition call {W A} (op : W -> result A * W) (ev : result A -> event)
  : M W A :=
  fun st =>
    let (res, w') := op (world st) in
    (res, log (ev res) (set_world w' st)).

(** Modelled from the spec: [terminalstyle.print_system_message] is not in
    the sources; the terminal layer is an external collaborator that shows
    a console notification.  It is modelled as an output that cannot fail. *)
Definition print_system_message {W} (msg : string) : M W unit :=
  fun st => (Ok tt, log (EvSystemMessage msg) st).

(** Modelled from the spec: [terminalstyle.print_assistant_response] is not
    in the sources; it displays the assistant's reply and cannot fail. *)
Definition print_assistant_response {W} (msg : string) : M W unit :=
  fun st => (Ok tt, log (EvAssistantResponse msg) st).

(** Modelled from the spec: the thread store ([tools.file_tools]) is not in
    the sources.  It holds one optional identifier: [save(id)] overwrites
    it, [clear()] removes it, [read()] returns it. *)
Definition clear_thread_id {W} : M W unit :=
  fun st =>
    (Ok tt, log EvClearThreadId
              (mkSt (world st) (thread_id st) (assistant_id st) None
                    (trace st))).

Definition save_thread_id {W} (tid : string) : M W unit :=
  fun st =>
    (Ok tt, log (EvSaveThreadId tid)
              (mkSt (world st) (thread_id st) (assistant_id st) (Some tid)
                    (trace st))).

Definition read_thread_id {W} : M W (option string) :=
  fun st => (Ok (stored_thread_id st), st).

Definition set_thread_id {W} (tid : string) : M W unit :=
  fun st =>
    (Ok tt, mkSt (world st) tid (assistant_id st) (stored_thread_id st)
                 (trace st)).

(** ** Strings *)

(** [str.lower()] on the ASCII range, which decides the three commands. *)
Definition lower_ascii (c : ascii) : ascii :=
  let n := nat_of_ascii c in
  if (andb (Nat.leb 65 n) (Nat.leb n 90)) then ascii_of_nat (n + 32) else c.

Fixpoint lower (s : string) : string :=
  match s with
  | EmptyString => EmptyString
  | String c s' => String (lower_ascii c) (lower s')
  end.

(** [x in [a, b, ...]] on strings. *)
Fixpoint str_in (x : string) (l : list string) : bool :=
  match l with
  | [] => false
  | y :: l' => if String.eqb x y then true else str_in x l'
  end.

(** ** The methods of AssistantManager *)

Section Manager.

Context {W : Type} {service : Service W} {tools : Tools W}.

(** The result of the body of one iteration of the polling loop, before the
    [time.sleep(1)] that ends it: a [return] or falling through. *)
Inductive poll :=
| Return (r : option Run)
| Continue.

Definition retrieve_run (rid : string) : M W Run :=
  fun st =>
    call (runs_retrieve (thread_id st) rid)
         (EvRunsRetrieve (thread_id st) rid) st.

Definition submit (rid : string) (outs : list ToolOutput) : M W Run :=
  fun st =>
    call (runs_submit_tool_outputs (thread_id st) rid outs)
         (EvSubmitToolOutputs (thread_id st) rid outs) st.

Definition run_tools (r : Run) : M W (list ToolOutput) :=
  call (handle_tool_calls r) (EvHandleToolCalls r).

Definition do_sleep (secs : Z) : M W unit :=
  fun st => (Ok tt, log (EvSleep secs) (set_world (sleep secs (world st)) st)).

(** Lines 164-185: the loop body up to, and without, the sleep. *)
Definition poll_once (rid : string) : M W poll :=
  run <- retrieve_run rid ;;
  if (status run =? "completed")%string then
    ret (Return (Some run))
  else if (status run =? "requires_action")%string then
    try_catch
      (tool_outputs <- run_tools run ;;
       match tool_outputs with
       | [] => ret Continue
       | _ :: _ => (_ <- submit rid tool_outputs ;; ret Continue)
       end)
      (fun e =>
         print_system_message ("Error handling tool calls: " ++ e) ;;;
         ret (Return None))
  else if str_in (status run) ["failed"; "cancelled"; "expired"] then
    print_system_message ("Run ended with status: " ++ status run) ;;;
    ret (Return None)
  else
    ret Continue.

(** Lines 163-190: the [while] loop and what follows it.  [fuel] bounds the
    number of iterations; [None] means the bound was too small. *)
Fixpoint wait_loop (fuel : nat) (rid : string) (timeout start_time : Z)
  (st : St W) : option (result (option Run) * St W) :=
  match fuel with
  | O => None
  | S fuel' =>
    if now (world st) - start_time <? timeout then
      match poll_once rid st with
      | (Ok (Return r), st') => Some (Ok r, st')
      | (Ok Continue, st') =>
        wait_loop fuel' rid timeout start_time (snd (do_sleep 1 st'))
      | (Raise e, st') => Some (Raise e, st')
      end
    else
      Some ((print_system_message "Run timed out" ;;; ret None) st)
  end.

Definition default_timeout : Z := 300.

Definition wait_for_completion (fuel : nat) (rid : string) (timeout : Z)
  (st : St W) : option (result (option Run) * St W) :=
  wait_loop fuel rid timeout (now (world st)) st.

(** Lines 151-156: the [for] loop over [runs.data]. *)
Fixpoint cancel_each (runs : list Run) : M W unit :=
  match runs with
  | [] => ret tt
  | run :: rest =>
    if str_in (status run) ["queued"; "in_progress"] then
      (fun st =>
         call (runs_cancel (thread_id st) (run_id run))
              (EvRunsCancel (thread_id st) (run_id run)) st) ;;;
      cancel_each rest
    else cancel_each rest
  end.

Definition cancel_active_runs : M W unit :=
  try_catch
    (runs <- (fun st => call (runs_list (thread_id st))
                             (EvRunsList (thread_id st)) st) ;;
     cancel_each runs)
    (fun e => print_system_message ("Error canceling runs: " ++ e)).

Definition create_new_thread : M W unit :=
  tid <- call threads_create EvThreadsCreate ;;
  set_thread_id tid ;;;
  save_thread_id tid ;;;
  print_system_message "New conversation thread created.".

Definition reset_thread : M W unit :=
  clear_thread_id ;;;
  create_new_thread ;;;
  print_system_message "Conversation thread has been reset.".

(** [message.content[0].text.value] *)
Definition first_text (m : Message) : M W string :=
  match content m with
  | [] => raise "list index out of range"
  | TextBlock v :: _ => ret v
  | OtherBlock cls :: _ =>
    raise ("'" ++ cls ++ "' object has no attribute 'text'")
  end.

(** Lines 101-104: print the first assistant message and stop. *)
Fixpoint show_reply (msgs : list Message) : M W unit :=
  match msgs with
  | [] => ret tt
  | m :: rest =>
    if (role m =? "assistant")%string then
      (v <- first_text m ;; print_assistant_response v)
    else show_reply rest
  end.

(** Lines 82-96: cancel what is still active, post the message, start the
    run. *)
Definition start_run (user_input : string) : M W Run :=
  cancel_active_runs ;;;
  (fun st => call (messages_create (thread_id st) user_input)
                  (EvMessagesCreate (thread_id st) user_input) st) ;;;
  (fun st => call (runs_create (thread_id st) (assistant_id st))
                  (EvRunsCreate (thread_id st) (assistant_id st)) st).

(** Lines 100-104: fetch the messages and display the reply. *)
Definition display_reply : M W unit :=
  messages <- (fun st => call (messages_list (thread_id st))
                              (EvMessagesList (thread_id st)) st) ;;
  show_reply messages.

(** Lines 82-104: an ordinary turn, after the commands are ruled out. *)
Definition turn (fuel : nat) (user_input : string)
  : St W -> option (result unit * St W) :=
  fun st =>
    match start_run user_input st with
    | (Raise e, st1) => Some (Raise e, st1)
    | (Ok run, st1) =>
      match wait_for_completion fuel (run_id run) default_timeout st1 with
      | None => None
      | Some (Raise e, st2) => Some (Raise e, st2)
      | Some (Ok None, st2) => Some (Ok tt, st2)
      | Some (Ok (Some _), st2) => Some (display_reply st2)
      end
    end.

(** Lines 73-104: the [try] block.  [Some b] is [return b]; [None] is
    falling out of the block to the final [return True]. *)
Definition turn_body (fuel : nat) (user_input : string)
  : St W -> option (result (option bool) * St W) :=
  fun st =>
    if str_in (lower user_input) ["exit"; "quit"] then
      Some ((print_system_message "Goodbye!" ;;; ret (Some false)) st)
    else if (lower user_input =? "reset")%string then
      Some ((reset_thread ;;; ret (Some true)) st)
    else
      match turn fuel user_input st with
      | None => None
      | Some (Ok _, st') => Some (Ok None, st')
      | Some (Raise e, st') => Some (Raise e, st')
      end.

(** Lines 106-109: the [except Exception as e] block. *)
Definition recover (e : exn) : M W unit :=
  print_system_message ("An error occurred: " ++ e) ;;;
  print_system_message "Starting a new conversation..." ;;;
  reset_thread.

Definition process_user_input (fuel : nat) (user_input : string)
  : St W -> option (result bool * St W) :=
  fun st =>
    match turn_body fuel user_input st with
    | None => None
    | Some (Ok (Some b), st') => Some (Ok b, st')
    | Some (Ok None, st') => Some (Ok true, st')
    | Some (Raise e, st') =>
      Some ((recover e ;;; ret true) st')
    end.

(** [n] iterations of the loop that fall through to the sleep: the state
    before the first and after the last. *)
Inductive cycles (rid : string) (timeout start_time : Z)
  : nat -> St W -> St W -> Prop :=
| cycles_O st : cycles rid timeout start_time O st st
| cycles_S n st st1 st2 :
    now (world st) - start_time < timeout ->
    poll_once rid st = (Ok Continue, st1) ->
    cycles rid timeout start_time n (snd (do_sleep 1 st1)) st2 ->
    cycles rid timeout start_time (S n) st st2.

(** The three ways an iteration falls through to the sleep, with the world
    and the events it leaves: a status that needs no action, a
    [requires_action] without outputs, a [requires_action] whose outputs
    were submitted. *)
Inductive falls_through (rid : string) (st : St W)
  : W -> list event -> Prop :=
| ft_waiting r w1 :
    runs_retrieve (thread_id st) rid (world st) = (Ok r, w1) ->
    str_in (status r) ["completed"; "failed"; "cancelled"; "expired"]
      = false ->
    status r <> "requires_action" ->
    falls_through rid st w1 [EvRunsRetrieve (thread_id st) rid (Ok r)]
| ft_no_outputs r w1 w2 :
    runs_retrieve (thread_id st) rid (world st) = (Ok r, w1) ->
    status r = "requires_action" ->
    handle_tool_calls r w1 = (Ok [], w2) ->
    falls_through rid st w2
      [EvRunsRetrieve (thread_id st) rid (Ok r);
       EvHandleToolCalls r (Ok [])]
| ft_submitted r w1 outs w2 r' w3 :
    runs_retrieve (thread_id st) rid (world st) = (Ok r, w1) ->
    status r = "requires_action" ->
    handle_tool_calls r w1 = (Ok outs, w2) ->
    outs <> [] ->
    runs_submit_tool_outputs (thread_id st) rid outs w2 = (Ok r', w3) ->
    falls_through rid st w3
      [EvRunsRetrieve (thread_id st) rid (Ok r);
       EvHandleToolCalls r (Ok outs);
       EvSubmitToolOutputs (thread_id st) rid outs (Ok r')].

(** What the termination of the poller needs of the clock: sleeping [d]
    advances it by at least [d], and it does not go back during the calls
    of the loop. *)
Definition clock_advances : Prop :=
  (forall d w, now w + d <= now (sleep d w)) /\
  (forall tid rid w, now w <= now (snd (runs_retrieve tid rid w))) /\
  (forall r w, now w <= now (snd (handle_tool_calls r w))) /\
  (forall tid rid outs w,
     now w <= now (snd (runs_submit_tool_outputs tid rid outs w))).

End Manager.

(** ** The tool registry *)

Section Registry.

Context {W : Type}.

(** A handler takes the serialized arguments; it may touch the world and
    may raise. *)
Definition handler := string -> W -> result string * W.

Variable registry : string -> option handler.

(** Modelled from the spec: [tools.handle_tool_calls] is not in the sources.
    Section 4.2: it executes each pending call by dispatching on the tool
    name and returns the (call id, output) pairs in the order of the calls;
    an unregistered name, or a handler that raises, propagates as an
    error. *)
Fixpoint dispatch_all (calls : list ToolCall) (w : W)
  : result (list ToolOutput) * W :=
  match calls with
  | [] => (Ok [], w)
  | c :: rest =>
    match registry (call_name c) with
    | None => (Raise ("Unknown tool: " ++ call_name c), w)
    | Some h =>
      match h (call_arguments c) w with
      | (Raise e, w1) => (Raise e, w1)
      | (Ok out, w1) =>
        match dispatch_all rest w1 with
        | (Ok outs, w2) => (Ok (mkToolOutput (call_id c) out :: outs), w2)
        | (Raise e, w2) => (Raise e, w2)
        end
      end
    end
  end.

Definition registry_tools : Tools W :=
  {| handle_tool_calls := fun r => dispatch_all (tool_calls r) |}.

End Registry.

(** ** A scripted world

    A concrete world to run the program in: the clock advances by what is
    slept, and the remote service answers each kind of call from a script
    (one answer per call, a default once the script is used up). *)

Module Sim.

Record t := mk {
  clock : Z;
  fetches : list (result Run);        (* answers of runs.retrieve *)
  threads : list (result string);     (* answers of threads.create *)
  cancels : list (result unit);       (* answers of runs.cancel *)
  listing : result (list Run);        (* answer of runs.list *)
  posting : result unit;              (* answer of messages.create *)
  starting : result Run;              (* answer of runs.create *)
  submitting : result Run;            (* answer of submit_tool_outputs *)
  replies : result (list Message)     (* answer of messages.list *)
}.

Definition pending (rid : string) : Run := mkRun rid "in_progress" [].

Definition tick (d : Z) (w : t) : t :=
  mk (clock w + d) (fetches w) (threads w) (cancels w) (listing w)
     (posting w) (starting w) (submitting w) (replies w).

Definition fetch (rid : string) (w : t) : result Run * t :=
  match fetches w with
  | [] => (Ok (pending rid), w)
  | r :: rest =>
    (r, mk (clock w) rest (threads w) (cancels w) (listing w) (posting w)
           (starting w) (submitting w) (replies w))
  end.

Definition new_thread (w : t) : result string * t :=
  match threads w with
  | [] => (Raise "Connection error.", w)
  | r :: rest =>
    (r, mk (clock w) (fetches w) rest (cancels w) (listing w) (posting w)
           (starting w) (submitting w) (replies w))
  end.

Definition cancel (w : t) : result unit * t :=
  match cancels w with
  | [] => (Ok tt, w)
  | r :: rest =>
    (r, mk (clock w) (fetches w) (threads w) rest (listing w) (posting w)
           (starting w) (submitting w) (replies w))
  end.

#[global] Instance service : Service t := {|
  now := clock;
  sleep := tick;
  threads_create := new_thread;
  messages_create := fun _ _ w => (posting w, w);
  messages_list := fun _ w => (replies w, w);
  runs_create := fun _ _ w => (starting w, w);
  runs_list := fun _ w => (listing w, w);
  runs_cancel := fun _ _ w => cancel w;
  runs_retrieve := fun _ rid w => fetch rid w;
  runs_submit_tool_outputs := fun _ _ _ w => (submitting w, w)
|}.

(** Two tools: [add] answers a fixed sum, [fail] raises. *)
Definition registry (name : string) : option (@handler t) :=
  if (name =? "add")%string then Some (fun _ w => (Ok "4", w))
  else if (name =? "fail")%string then
    Some (fun _ w => (Raise "tool crashed", w))
  else None.

#[global] Instance tools : Tools t := registry_tools registry.

Definition quiet : t :=
  mk 0 [] [Ok "thread_2"] [] (Ok []) (Ok tt) (Ok (pending "run_1"))
     (Ok (pending "run_1")) (Ok [mkMessage "assistant" [TextBlock "4"]]).

Definition with_fetches (l : list (result Run)) (w : t) : t :=
  mk (clock w) l (threads w) (cancels w) (listing w) (posting w)
     (starting w) (submitting w) (replies w).

Definition init (w : t) : St t :=
  mkSt w "thread_1" "asst_1" (Some "thread_1") [].

Definition asks (calls : list ToolCall) : Run :=
  mkRun "run_1" "requires_action" calls.

Definition done : Run := mkRun "run_1" "completed" [].

(** Scenarios. *)

(** Two [requires_action] cycles, one with a submission and one without
    outputs, then [completed]. *)
Definition two_cycles : St t :=
  init (with_fetches
          [Ok (asks [mkToolCall "call_1" "add" "{}"]); Ok (asks []); Ok done]
          quiet).

(** The run is in progress, then failed. *)
Definition fails_second : St t :=
  init (with_fetches
          [Ok (pending "run_1"); Ok (mkRun "run_1" "failed" [])] quiet).

(** The run asks for a tool that raises. *)
Definition tool_crash : St t :=
  init (with_fetches [Ok (asks [mkToolCall "call_1" "fail" "{}"])] quiet).

(** The run asks for two tools. *)
Definition two_calls : St t :=
  init (with_fetches
          [Ok (asks [mkToolCall "call_1" "add" "{}";
                     mkToolCall "call_2" "add" "{}"])] quiet).

(** The run stays in progress for ever. *)
Definition stuck : St t := init quiet.




(** Posting the message raises; the service then creates a thread. *)
Definition post_raises : St t :=
  init (mk 0 [] [Ok "thread_2"] [] (Ok []) (Raise "Connection error.")
           (Ok (pending "run_1")) (Ok (pending "run_1")) (Ok [])).

(** The service is unreachable: posting raises and so does creating a
    thread. *)
Definition unreachable : St t :=
  init (mk 0 [] [] [] (Raise "Connection error.") (Raise "Connection error.")
           (Raise "Connection error.") (Raise "Connection error.")
           (Raise "Connection error.")).

End Sim.

(** ** Reading traces *)

(** The state [st] after more calls: the world they left and the events
    they added. *)
Definition after {W} (w : W) (evs : list event) (st : St W) : St W :=
  mkSt w (thread_id st) (assistant_id st) (stored_thread_id st)
       (trace st ++ evs).

(** The events performed between [st] and a later state [st']. *)
Definition since {W} (st st' : St W) : list event :=
  skipn (length (trace st)) (trace st').

(** The outcome and the trace of a run of the program, when it ended. *)
Definition outcome {W A} (o : option (result A * St W)) : option (result A) :=
  option_map fst o.


(** The state a run of the program ended in ([d] when it did not end). *)
Definition final_state {W A} (o : option (result A * St W)) (d : St W)
  : St W :=
  match o with
  | Some (_, st) => st
  | None => d
  end.

Definition terminal (s : string) : bool :=
  str_in s ["completed"; "failed"; "cancelled"; "expired"].

Definition is_success (ev : event) : bool :=
  match ev with
  | EvRunsRetrieve _ _ (Ok r) => (status r =? "completed")%string
  | _ => false
  end.

Definition is_sleep (ev : event) : bool :=
  match ev with EvSleep _ => true | _ => false end.

Definition is_submit (ev : event) : bool :=
  match ev with EvSubmitToolOutputs _ _ _ _ => true | _ => false end.

Definition is_fetch (ev : event) : bool :=
  match ev with EvRunsRetrieve _ _ _ => true | _ => false end.

(** An event after which the poller stops before its deadline: a fetched
    terminal status, or a call that raised. *)
Definition ends_poll (ev : event) : bool :=
  match ev with
  | EvRunsRetrieve _ _ (Ok r) => terminal (status r)
  | EvRunsRetrieve _ _ (Raise _) => true
  | EvHandleToolCalls _ (Raise _) => true
  | EvSubmitToolOutputs _ _ _ (Raise _) => true
  | _ => false
  end.

Definition count (p : event -> bool) (evs : list event) : nat :=
  length (filter p evs).

Definition is_command (user_input : string) : bool :=
  str_in (lower user_input) ["exit"; "quit"; "reset"].

(** The exception a call ended with, if it raised. *)
Definition raised (ev : event) : option exn :=
  match ev with
  | EvThreadsCreate (Raise e)
  | EvMessagesCreate _ _ (Raise e)
  | EvMessagesList _ (Raise e)
  | EvRunsCreate _ _ (Raise e)
  | EvRunsList _ (Raise e)
  | EvRunsCancel _ _ (Raise e)
  | EvRunsRetrieve _ _ (Raise e)
  | EvSubmitToolOutputs _ _ _ (Raise e)
  | EvHandleToolCalls _ (Raise e) => Some e
  | _ => None
  end.

Definition is_post (ev : event) : bool :=
  match ev with EvMessagesCreate _ _ _ => true | _ => false end.

(** [run.status in ["queued", "in_progress"]] *)
Definition active (r : Run) : bool :=
  str_in (status r) ["queued"; "in_progress"].

(** The event of a cancellation that succeeded. *)
Definition cancel_ok (tid : string) (r : Run) : event :=
  EvRunsCancel tid (run_id r) (Ok tt).


(** ** Outcomes of an iteration *)

Section Outcomes.

Context {W : Type} {service : Service W} {tools : Tools W}.

(** Every way one iteration of the polling loop can go, with its result,
    the world it leaves and the events it performs. *)
Inductive iteration (rid : string) (st : St W)
  : result poll -> W -> list event -> Prop :=
| it_fetch_raises e w1 :
    runs_retrieve (thread_id st) rid (world st) = (Raise e, w1) ->
    iteration rid st (Raise e) w1
      [EvRunsRetrieve (thread_id st) rid (Raise e)]
| it_completed r w1 :
    runs_retrieve (thread_id st) rid (world st) = (Ok r, w1) ->
    status r = "completed" ->
    iteration rid st (Ok (Return (Some r))) w1
      [EvRunsRetrieve (thread_id st) rid (Ok r)]
| it_ended r w1 :
    runs_retrieve (thread_id st) rid (world st) = (Ok r, w1) ->
    str_in (status r) ["failed"; "cancelled"; "expired"] = true ->
    iteration rid st (Ok (Return None)) w1
      [EvRunsRetrieve (thread_id st) rid (Ok r);
       EvSystemMessage ("Run ended with status: " ++ status r)]
| it_tool_raises r w1 e w2 :
    runs_retrieve (thread_id st) rid (world st) = (Ok r, w1) ->
    status r = "requires_action" ->
    handle_tool_calls r w1 = (Raise e, w2) ->
    iteration rid st (Ok (Return None)) w2
      [EvRunsRetrieve (thread_id st) rid (Ok r);
       EvHandleToolCalls r (Raise e);
       EvSystemMessage ("Error handling tool calls: " ++ e)]
| it_submit_raises r w1 outs w2 e w3 :
    runs_retrieve (thread_id st) rid (world st) = (Ok r, w1) ->
    status r = "requires_action" ->
    handle_tool_calls r w1 = (Ok outs, w2) ->
    outs <> [] ->
    runs_submit_tool_outputs (thread_id st) rid outs w2 = (Raise e, w3) ->
    iteration rid st (Ok (Return None)) w3
      [EvRunsRetrieve (thread_id st) rid (Ok r);
       EvHandleToolCalls r (Ok outs);
       EvSubmitToolOutputs (thread_id st) rid outs (Raise e);
       EvSystemMessage ("Error handling tool calls: " ++ e)]
| it_falls_through w evs :
    falls_through rid st w evs ->
    iteration rid st (Ok Continue) w evs.

End Outcomes.

(** What the loop returns when an iteration leaves it. *)
Definition loop_result (x : result poll) : result (option Run) :=
  match x with
  | Ok (Return r) => Ok r
  | Ok Continue => Ok None
  | Raise e => Raise e
  end.

(** The events the poller of run [rid] on thread [tid] may perform. *)
Definition poller_event (tid rid : string) (ev : event) : bool :=
  match ev with
  | EvSleep secs => secs =? 1
  | EvRunsRetrieve t r _ => ((t =? tid) && (r =? rid))%string
  | EvSubmitToolOutputs t r _ _ => ((t =? tid) && (r =? rid))%string
  | EvHandleToolCalls _ _ => true
  | EvSystemMessage _ => true
  | _ => false
  end.

(** The three reports of the poller. *)
Definition poller_report (msg : string) : Prop :=
  msg = "Run timed out" \/
  (exists s, str_in s ["failed"; "cancelled"; "expired"] = true /\
             msg = "Run ended with status: " ++ s) \/
  (exists e, msg = "Error handling tool calls: " ++ e).



(** The thread in use is the persisted one. *)
Definition consistent {W} (st : St W) : Prop :=
  stored_thread_id st = Some (thread_id st).

(** ** The session: construction, loop and entry point *)

(** Modelled from the spec: [terminalstyle.get_user_input] is not in the
    sources; it reads one line from the user.  It is a call on the world
    that may raise (end of input). *)
Class Terminal (W : Type) := {
  get_user_input : W -> result string * W
}.

(** The assistant calls of the remote service; they answer with the
    assistant object, of which the program reads [id].  The update sends
    the instructions, the tool definitions and the model name, which are
    constants of the program. *)
Class Assistants (W : Type) := {
  assistants_retrieve : string -> W -> result string * W;
  assistants_update : string -> W -> result string * W
}.

(** What the session does, in program order: the events of the manager,
    the screen, the prompt and the assistant calls. *)
Inductive session_event :=
| Core (ev : event)
| EvClearScreen
| EvWelcome
| EvDivider
| EvUserInput (res : result string)
| EvAssistantsRetrieve (assistant : string) (res : result string)
| EvAssistantsUpdate (assistant : string) (res : result string).

Record Session (W : Type) := mkSession {
  manager : St W;
  console : list session_event
}.
Arguments mkSession {W}.
Arguments manager {W}.
Arguments console {W}.

(** [os.getenv] of the two settings, after [load_dotenv]. *)
Record Env := mkEnv {
  env_api_key : option string;
  env_assistant_id : option string
}.

(** Truth value of an optional string: [None] and [""] are false. *)
Definition truthy (s : option string) : bool :=
  match s with
  | Some (String _ _) => true
  | _ => false
  end.

(** How [run] ends: it returns, or [sys.exit(code)]. *)
Inductive ending :=
| Returned
| SysExit (code : Z).

Section SessionLoop.

Context {W : Type} {service : Service W} {tools : Tools W}
        {terminal : Terminal W} {assistants : Assistants W}.

Definition SM (A : Type) : Type := Session W -> result A * Session W.

Definition say (ev : session_event) (s : Session W) : Session W :=
  mkSession (manager s) (console s ++ [ev]).

(** A method of the manager, run inside the session: its events are the
    next events of the session. *)
Definition lift {A} (m : M W A) : SM A :=
  fun s =>
    let (res, st') := m (manager s) in
    (res, mkSession st' (console s ++ map Core (since (manager s) st'))).

Definition lift_opt {A} (m : St W -> option (result A * St W))
  (s : Session W) : option (result A * Session W) :=
  match m (manager s) with
  | None => None
  | Some (res, st') =>
    Some (res, mkSession st' (console s ++ map Core (since (manager s) st')))
  end.

(** A call on the world made by the session itself. *)
Definition session_call {A} (op : W -> result A * W)
  (ev : result A -> session_event) : SM A :=
  fun s =>
    let (res, w') := op (world (manager s)) in
    (res, say (ev res) (mkSession (set_world w' (manager s)) (console s))).

Definition set_assistant (aid : string) (s : Session W) : Session W :=
  mkSession
    (mkSt (world (manager s)) (thread_id (manager s)) aid
          (stored_thread_id (manager s)) (trace (manager s)))
    (console s).

(** Lines 133-145.  The assistant in use changes only when the update
    succeeds. *)
Definition update_assistant_configuration (aid : string) : SM unit :=
  fun s =>
    let (_, s1) :=
      lift (print_system_message "Updating assistant configuration...") s in
    match session_call (assistants_update aid) (EvAssistantsUpdate aid) s1 with
    | (Ok a, s2) =>
      lift (print_system_message
              "Assistant configuration updated successfully!")
           (set_assistant a s2)
    | (Raise e, s2) =>
      lift (print_system_message
              ("Warning: Failed to update assistant configuration: " ++ e))
           s2
    end.

(** Lines 53-56.  A manager under construction has no thread yet, which is
    the empty [thread_id] here; a persisted identifier that is present and
    not empty is taken, otherwise a thread is created. *)
Definition attach_thread : SM unit :=
  lift (stored <- read_thread_id ;;
        match stored with
        | Some (String c tid) => set_thread_id (String c tid)
        | _ => create_new_thread
        end).

(** Lines 31-56: [AssistantManager.__init__], from the settings, the world
    and the thread store as the process finds them. *)
Definition new_manager (env : Env) (w : W) (stored : option string)
  : result unit * Session W :=
  let s0 := mkSession (mkSt w "" "" stored []) [] in
  if negb (truthy (env_api_key env)) then
    (Raise "OPENAI_API_KEY not found in environment variables", s0)
  else
    match env_assistant_id env with
    | Some (String c aid') =>
      let aid := String c aid' in
      match session_call (assistants_retrieve aid)
                         (EvAssistantsRetrieve aid) s0 with
      | (Raise e, s1) =>
        (Raise ("Could not retrieve assistant with ID " ++ aid ++ ": " ++ e),
         s1)
      | (Ok a, s1) =>
        let (_, s2) := update_assistant_configuration aid (set_assistant a s1) in
        attach_thread s2
      end
    | _ => (Raise "ASSISTANT_ID not found in environment variables", s0)
    end.

(** Lines 120-127: the [while True] loop.  [turns] bounds the number of
    prompts and [fuel] the iterations of each poll; [None] means a bound
    was too small.  The result is [Ok] when the loop is left by [break]. *)
Fixpoint session_loop (turns fuel : nat) (s : Session W)
  : option (result unit * Session W) :=
  match turns with
  | O => None
  | S turns' =>
    match session_call get_user_input EvUserInput s with
    | (Raise e, s1) => Some (Raise e, s1)
    | (Ok user_input, s1) =>
      match lift_opt (process_user_input fuel user_input) (say EvDivider s1)
      with
      | None => None
      | Some (Raise e, s2) => Some (Raise e, s2)
      | Some (Ok false, s2) => Some (Ok tt, s2)
      | Some (Ok true, s2) => session_loop turns' fuel (say EvDivider s2)
      end
    end
  end.

(** Lines 113-131.  Modelled from the spec: [clear_screen],
    [print_welcome_message] and [print_divider] of [terminalstyle] are not
    in the sources; they are outputs that cannot fail. *)
Definition run (turns fuel : nat) (s : Session W)
  : option (ending * Session W) :=
  match
    session_loop turns fuel (say EvDivider (say EvWelcome (say EvClearScreen s)))
  with
  | None => None
  | Some (Ok _, s1) => Some (Returned, s1)
  | Some (Raise e, s1) =>
    Some (SysExit 1, say (Core (EvSystemMessage ("Fatal error: " ++ e))) s1)
  end.

(** Lines 192-201: the entry point, with the exit code of the process.
    [sys.exit] inside [run] is not an [Exception] and passes through.
    The [except KeyboardInterrupt] arm (lines 197-198) answers an
    interrupt, which like every interrupt is outside the model: [main]
    describes the runs of the program that are not interrupted. *)
Definition main (env : Env) (w : W) (stored : option string)
  (turns fuel : nat) : option (Z * Session W) :=
  match new_manager env w stored with
  | (Raise e, s) =>
    Some (1, say (Core (EvSystemMessage ("Fatal error: " ++ e))) s)
  | (Ok _, s) =>
    match run turns fuel s with
    | None => None
    | Some (Returned, s') => Some (0, s')
    | Some (SysExit code, s') => Some (code, s')
    end
  end.

End SessionLoop.

Definition creates_thread (ev : session_event) : bool :=
  match ev with
  | Core (EvThreadsCreate _) => true
  | _ => false
  end.

(** The two events an exception that reaches the handler of [run] comes
    from: a prompt that raises, and a thread creation that raises. *)
Definition fatal_source (ev : session_event) (e : exn) : Prop :=
  match ev with
  | EvUserInput (Raise e')
  | Core (EvThreadsCreate (Raise e')) => e' = e
  | _ => False
  end.

(** A scripted desk: the scripted service, a user who types the lines of
    a script, and scripted answers to the assistant calls. *)

Module Desk.

Record t := mk {
  core : Sim.t;
  typed : list string;                (* lines still to be typed *)
  retrieving : result string;         (* answer of assistants.retrieve *)
  updating : result string            (* answer of assistants.update *)
}.

Definition on_core {A} (op : Sim.t -> result A * Sim.t) (w : t)
  : result A * t :=
  let (res, c) := op (core w) in
  (res, mk c (typed w) (retrieving w) (updating w)).

#[global] Instance service : Service t := {|
  now := fun w => now (core w);
  sleep := fun d w => mk (sleep d (core w)) (typed w) (retrieving w)
                         (updating w);
  threads_create := on_core threads_create;
  messages_create := fun tid txt => on_core (messages_create tid txt);
  messages_list := fun tid => on_core (messages_list tid);
  runs_create := fun tid aid => on_core (runs_create tid aid);
  runs_list := fun tid => on_core (runs_list tid);
  runs_cancel := fun tid rid => on_core (runs_cancel tid rid);
  runs_retrieve := fun tid rid => on_core (runs_retrieve tid rid);
  runs_submit_tool_outputs :=
    fun tid rid outs => on_core (runs_submit_tool_outputs tid rid outs)
|}.

#[global] Instance tools : Tools t := {|
  handle_tool_calls := fun r => on_core (handle_tool_calls r)
|}.

Definition read_line (w : t) : result string * t :=
  match typed w with
  | [] => (Raise "EOF when reading a line", w)
  | line :: rest => (Ok line, mk (core w) rest (retrieving w) (updating w))
  end.

#[global] Instance terminal : Terminal t := {|
  get_user_input := read_line
|}.

#[global] Instance assistants : Assistants t := {|
  assistants_retrieve := fun _ w => (retrieving w, w);
  assistants_update := fun _ w => (updating w, w)
|}.

Definition settings : Env := mkEnv (Some "sk-test") (Some "asst_1").

(** The user asks a question and quits; the run completes at once. *)
Definition chat : t :=
  mk (Sim.with_fetches [Ok Sim.done] Sim.quiet) ["What is 2+2?"; "quit"]
     (Ok "asst_1") (Ok "asst_1").

(** The update of the assistant raises. *)
Definition stale : t :=
  mk Sim.quiet ["Exit"] (Ok "asst_1") (Raise "Connection error.").

(** The assistant does not exist. *)
Definition unknown : t :=
  mk Sim.quiet ["exit"] (Raise "No assistant found") (Ok "asst_1").

(** The user types nothing. *)
Definition silent : t :=
  mk Sim.quiet [] (Ok "asst_1") (Ok "asst_1").

End Desk.

(** More scenarios of the scripted world. *)

Module Cases.

(** The second fetch raises. *)
Definition fetch_raises : St Sim.t :=
  Sim.init (Sim.with_fetches
              [Ok (Sim.pending "run_1"); Raise "Connection error."]
              Sim.quiet).

(** The submission of the tool outputs raises. *)
Definition submit_raises : St Sim.t :=
  Sim.init
    (Sim.mk 0 [Ok (Sim.asks [mkToolCall "call_1" "add" "{}"])]
       [Ok "thread_2"] [] (Ok []) (Ok tt) (Ok (Sim.pending "run_1"))
       (Raise "Bad request") (Ok [])).

(** The run completes; the listing holds a user message, then two
    assistant messages. *)
Definition two_replies : St Sim.t :=
  Sim.init
    (Sim.mk 0 [Ok Sim.done] [Ok "thread_2"] [] (Ok []) (Ok tt)
       (Ok (Sim.pending "run_1")) (Ok (Sim.pending "run_1"))
       (Ok [mkMessage "user" [TextBlock "What is 2+2?"];
            mkMessage "assistant"
              [TextBlock "4"; OtherBlock "ImageFileContentBlock"];
            mkMessage "assistant" [TextBlock "Hello"]])).

(** The run completes; the assistant message is an image. *)
Definition image_reply : St Sim.t :=
  Sim.init
    (Sim.mk 0 [Ok Sim.done] [Ok "thread_2"] [] (Ok []) (Ok tt)
       (Ok (Sim.pending "run_1")) (Ok (Sim.pending "run_1"))
       (Ok [mkMessage "assistant" [OtherBlock "ImageFileContentBlock"]])).

(** One [requires_action] cycle with a submission, then [completed]. *)
Definition one_cycle : St Sim.t :=
  Sim.init
    (Sim.with_fetches
       [Ok (Sim.asks [mkToolCall "call_1" "add" "{}"]); Ok Sim.done]
       Sim.quiet).

(** The service answers the creation of a thread with the identifier of
    the thread in use. *)
Definition reissued : St Sim.t :=
  Sim.init
    (Sim.mk 0 [] [Ok "thread_1"] [] (Ok []) (Ok tt)
       (Ok (Sim.pending "run_1")) (Ok (Sim.pending "run_1")) (Ok [])).

(** Creating a thread raises once, then succeeds. *)
Definition flaky_threads : St Sim.t :=
  Sim.init
    (Sim.mk 0 [] [Raise "Connection error."; Ok "thread_2"] [] (Ok [])
       (Ok tt) (Ok (Sim.pending "run_1")) (Ok (Sim.pending "run_1")) (Ok [])).

End Cases.

(** ** Proof steps *)

Ltac flat :=
  unfold ret, bind, try_catch, print_system_message, log, set_world, after;
  cbn [world thread_id assistant_id stored_thread_id trace fst snd];
  rewrite <- ?app_assoc; cbn [app]; try reflexivity.

Ltac fetch_with Hr :=
  unfold poll_once, retrieve_run, run_tools, submit, call, bind, try_catch;
  rewrite Hr; cbn [fst snd].

(** * Properties *)

(** ** Lists and strings *)

Lemma str_in_true x l : str_in x l = true -> In x l.
Proof.
  induction l as [|y l IH]; simpl; [discriminate|].
  destruct (String.eqb_spec x y) as [->|_]; auto.
Qed.

Lemma since_app {W} (st st' : St W) evs :
  trace st' = (trace st ++ evs)%list -> since st st' = evs.
Proof.
  unfold since. intros ->.
  rewrite skipn_app, skipn_all, Nat.sub_diag. reflexivity.
Qed.

Lemma since_after {W} (st : St W) w evs : since st (after w evs st) = evs.
Proof. apply since_app. reflexivity. Qed.

Lemma count_app p (l1 l2 : list event) :
  (count p (l1 ++ l2)%list = count p l1 + count p l2)%nat.
Proof. unfold count. rewrite filter_app, length_app. reflexivity. Qed.

Lemma after_after {W} (st : St W) w1 evs1 w2 evs2 :
  after w2 evs2 (after w1 evs1 st) = after w2 (evs1 ++ evs2)%list st.
Proof. unfold after. simpl. rewrite app_assoc. reflexivity. Qed.

Lemma after_nil {W} (st : St W) : after (world st) [] st = st.
Proof. destruct st. unfold after. simpl. rewrite app_nil_r. reflexivity. Qed.

(** ** One iteration of the polling loop *)

Section Iteration.

Context {W : Type} {service : Service W} {tools : Tools W}.

Implicit Types (st : St W) (r : Run) (rid : string).

Lemma poll_once_raise rid st e w1 :
  runs_retrieve (thread_id st) rid (world st) = (Raise e, w1) ->
  poll_once rid st =
  (Raise e, after w1 [EvRunsRetrieve (thread_id st) rid (Raise e)] st).
Proof. intros Hr. fetch_with Hr. flat. Qed.

Lemma poll_once_completed rid st r w1 :
  runs_retrieve (thread_id st) rid (world st) = (Ok r, w1) ->
  status r = "completed" ->
  poll_once rid st =
  (Ok (Return (Some r)),
   after w1 [EvRunsRetrieve (thread_id st) rid (Ok r)] st).
Proof.
  intros Hr Hs. fetch_with Hr. rewrite Hs, String.eqb_refl. flat.
Qed.

Lemma poll_once_ended rid st r w1 :
  runs_retrieve (thread_id st) rid (world st) = (Ok r, w1) ->
  str_in (status r) ["failed"; "cancelled"; "expired"] = true ->
  poll_once rid st =
  (Ok (Return None),
   after w1 [EvRunsRetrieve (thread_id st) rid (Ok r);
             EvSystemMessage ("Run ended with status: " ++ status r)] st).
Proof.
  intros Hr Hs. fetch_with Hr. rewrite Hs.
  apply str_in_true in Hs.
  assert (Hne : (status r =? "completed")%string = false
                /\ (status r =? "requires_action")%string = false).
  { cbn [In] in Hs. destruct Hs as [<-|[<-|[<-|[]]]]; split; reflexivity. }
  destruct Hne as [-> ->]. flat.
Qed.

Lemma poll_once_tool_error rid st r w1 e w2 :
  runs_retrieve (thread_id st) rid (world st) = (Ok r, w1) ->
  status r = "requires_action" ->
  handle_tool_calls r w1 = (Raise e, w2) ->
  poll_once rid st =
  (Ok (Return None),
   after w2 [EvRunsRetrieve (thread_id st) rid (Ok r);
             EvHandleToolCalls r (Raise e);
             EvSystemMessage ("Error handling tool calls: " ++ e)] st).
Proof.
  intros Hr Hs Ht. fetch_with Hr. rewrite Hs, String.eqb_refl.
  change ("requires_action" =? "completed")%string with false.
  cbn [world log set_world]. rewrite Ht. flat.
Qed.

Lemma poll_once_no_outputs rid st r w1 w2 :
  runs_retrieve (thread_id st) rid (world st) = (Ok r, w1) ->
  status r = "requires_action" ->
  handle_tool_calls r w1 = (Ok [], w2) ->
  poll_once rid st =
  (Ok Continue,
   after w2 [EvRunsRetrieve (thread_id st) rid (Ok r);
             EvHandleToolCalls r (Ok [])] st).
Proof.
  intros Hr Hs Ht. fetch_with Hr. rewrite Hs, String.eqb_refl.
  change ("requires_action" =? "completed")%string with false.
  cbn [world log set_world]. rewrite Ht. flat.
Qed.

Lemma poll_once_submit rid st r w1 outs w2 res w3 :
  runs_retrieve (thread_id st) rid (world st) = (Ok r, w1) ->
  status r = "requires_action" ->
  handle_tool_calls r w1 = (Ok outs, w2) ->
  outs <> [] ->
  runs_submit_tool_outputs (thread_id st) rid outs w2 = (res, w3) ->
  poll_once rid st =
  (match res with
   | Ok _ => Ok Continue
   | Raise _ => Ok (Return None)
   end,
   after w3 ([EvRunsRetrieve (thread_id st) rid (Ok r);
              EvHandleToolCalls r (Ok outs);
              EvSubmitToolOutputs (thread_id st) rid outs res]
             ++ match res with
                | Ok _ => []
                | Raise e =>
                  [EvSystemMessage ("Error handling tool calls: " ++ e)%string]
                end)%list st).
Proof.
  intros Hr Hs Ht Hne Hsub. fetch_with Hr. rewrite Hs, String.eqb_refl.
  change ("requires_action" =? "completed")%string with false.
  cbn [world log set_world]. rewrite Ht.
  destruct outs as [|o outs]; [congruence|].
  cbn [world thread_id log set_world fst snd]. rewrite Hsub.
  destruct res; flat.
Qed.

Lemma poll_once_waiting rid st r w1 :
  runs_retrieve (thread_id st) rid (world st) = (Ok r, w1) ->
  terminal (status r) = false ->
  status r <> "requires_action" ->
  poll_once rid st =
  (Ok Continue, after w1 [EvRunsRetrieve (thread_id st) rid (Ok r)] st).
Proof.
  intros Hr Ht Hs. fetch_with Hr.
  unfold terminal in Ht. cbn [str_in] in Ht |- *.
  destruct (status r =? "completed")%string; [discriminate|].
  destruct (String.eqb_spec (status r) "requires_action"); [contradiction|].
  rewrite Ht. flat.
Qed.

End Iteration.

(** ** The polling loop *)

Section Loop.

Context {W : Type} {service : Service W} {tools : Tools W}.

Implicit Types (st : St W) (r : Run) (rid : string).

Lemma success_ends_poll ev : is_success ev = true -> ends_poll ev = true.
Proof.
  destruct ev as [| | | | | | |t i [r|e]| | | | | |]; simpl; try discriminate.
  intros Hs. unfold terminal. cbn [str_in]. rewrite Hs. reflexivity.
Qed.

Lemma count_success_le evs : (count is_success evs <= count ends_poll evs)%nat.
Proof.
  unfold count. induction evs as [|ev evs IH]; simpl; [lia|].
  destruct (is_success ev) eqn:Hs.
  - rewrite (success_ends_poll _ Hs). simpl. lia.
  - destruct (ends_poll ev); simpl; lia.
Qed.

(** Every outcome of one iteration, with the events it performed. *)
Lemma poll_once_inv rid st :
  exists w evs,
    snd (poll_once rid st) = after w evs st /\
    count is_sleep evs = O /\
    (clock_advances -> now (world st) <= now w) /\
    match fst (poll_once rid st) with
    | Ok Continue => count ends_poll evs = O /\ falls_through rid st w evs
    | Ok (Return (Some r)) =>
      evs = [EvRunsRetrieve (thread_id st) rid (Ok r)] /\
      status r = "completed"
    | _ => (0 < count ends_poll evs)%nat
    end.
Proof.
  destruct (runs_retrieve (thread_id st) rid (world st)) as [[r|e] w1] eqn:Hr.
  2:{ rewrite (poll_once_raise _ _ _ _ Hr). do 2 eexists.
      split; [reflexivity|]. split; [reflexivity|].
      split; [|unfold count; simpl; lia].
      intros (_ & Hf & _). specialize (Hf (thread_id st) rid (world st)).
      rewrite Hr in Hf. exact Hf. }
  assert (Hclk1 : clock_advances -> now (world st) <= now w1).
  { intros (_ & Hf & _). specialize (Hf (thread_id st) rid (world st)).
    rewrite Hr in Hf. exact Hf. }
  destruct (String.eqb_spec (status r) "completed") as [Hc|Hc].
  { rewrite (poll_once_completed _ _ _ _ Hr Hc). do 2 eexists.
    repeat split; auto. }
  destruct (String.eqb_spec (status r) "requires_action") as [Ha|Ha].
  - assert (Hterm : terminal (status r) = false) by (rewrite Ha; reflexivity).
    destruct (handle_tool_calls r w1) as [[outs|e] w2] eqn:Ht.
    + assert (Hclk2 : clock_advances -> now (world st) <= now w2).
      { intros Hc'. pose proof (Hclk1 Hc') as H1.
        destruct Hc' as (_ & _ & Hf & _). specialize (Hf r w1).
        rewrite Ht in Hf. simpl in Hf. lia. }
      destruct outs as [|o outs].
      * rewrite (poll_once_no_outputs _ _ _ _ _ Hr Ha Ht). do 2 eexists.
        split; [reflexivity|]. split; [reflexivity|]. split; [exact Hclk2|].
        cbn [fst]. split.
        -- unfold count. cbn [filter ends_poll]. rewrite Hterm. reflexivity.
        -- eapply ft_no_outputs; eauto.
      * destruct (runs_submit_tool_outputs (thread_id st) rid (o :: outs) w2)
          as [res w3] eqn:Hsub.
        assert (Hne : o :: outs <> []) by discriminate.
        rewrite (poll_once_submit _ _ _ _ _ _ _ _ Hr Ha Ht Hne Hsub).
        do 2 eexists. split; [reflexivity|].
        split; [destruct res; reflexivity|]. split.
        { intros Hc'. pose proof (Hclk2 Hc') as H2.
          destruct Hc' as (_ & _ & _ & Hf).
          specialize (Hf (thread_id st) rid (o :: outs) w2).
          rewrite Hsub in Hf. simpl in Hf. lia. }
        destruct res as [r'|e]; cbn [fst].
        -- split.
           ++ unfold count. cbn [filter ends_poll app]. rewrite Hterm.
              reflexivity.
           ++ eapply ft_submitted; eauto.
        -- unfold count. cbn [filter ends_poll app]. rewrite Hterm.
           simpl. lia.
    + rewrite (poll_once_tool_error _ _ _ _ _ _ Hr Ha Ht). do 2 eexists.
      split; [reflexivity|]. split; [reflexivity|]. split.
      { intros Hc'. pose proof (Hclk1 Hc') as H1.
        destruct Hc' as (_ & _ & Hf & _). specialize (Hf r w1).
        rewrite Ht in Hf. simpl in Hf. lia. }
      cbn [fst]. unfold count. cbn [filter ends_poll]. rewrite Hterm.
      simpl. lia.
  - destruct (str_in (status r) ["failed"; "cancelled"; "expired"]) eqn:He.
    + rewrite (poll_once_ended _ _ _ _ Hr He). do 2 eexists.
      split; [reflexivity|]. split; [reflexivity|]. split; [exact Hclk1|].
      cbn [fst]. unfold count. cbn [filter ends_poll]. unfold terminal.
      cbn [str_in] in He |- *. rewrite He.
      destruct (status r =? "completed")%string; simpl; lia.
    + assert (Hterm : terminal (status r) = false).
      { unfold terminal. cbn [str_in] in He |- *.
        destruct (String.eqb_spec (status r) "completed"); [contradiction|].
        exact He. }
      rewrite (poll_once_waiting _ _ _ _ Hr Hterm Ha). do 2 eexists.
      split; [reflexivity|]. split; [reflexivity|]. split; [exact Hclk1|].
      cbn [fst]. split.
      * unfold count. cbn [filter ends_poll]. rewrite Hterm. reflexivity.
      * eapply ft_waiting; eauto.
Qed.

Lemma falls_through_continue rid st w evs :
  falls_through rid st w evs ->
  poll_once rid st = (Ok Continue, after w evs st).
Proof.
  intros [r w1 Hr Ht Ha|r w1 w2 Hr Ha Ht|r w1 outs w2 r' w3 Hr Ha Ht Hne Hs].
  - apply poll_once_waiting; assumption.
  - apply poll_once_no_outputs with (w1 := w1); assumption.
  - rewrite (poll_once_submit _ _ _ _ _ _ _ _ Hr Ha Ht Hne Hs). reflexivity.
Qed.

Lemma wait_loop_return fuel rid timeout start st x st' :
  now (world st) - start < timeout ->
  poll_once rid st = (Ok (Return x), st') ->
  wait_loop (S fuel) rid timeout start st = Some (Ok x, st').
Proof.
  intros Hg Hp. cbn [wait_loop].
  rewrite (proj2 (Z.ltb_lt _ _) Hg), Hp. reflexivity.
Qed.

Lemma wait_loop_continue fuel rid timeout start st st1 :
  now (world st) - start < timeout ->
  poll_once rid st = (Ok Continue, st1) ->
  wait_loop (S fuel) rid timeout start st =
  wait_loop fuel rid timeout start
            (after (sleep 1 (world st1)) [EvSleep 1] st1).
Proof.
  intros Hg Hp. cbn [wait_loop].
  rewrite (proj2 (Z.ltb_lt _ _) Hg), Hp. reflexivity.
Qed.

Lemma wait_loop_cycles rid timeout start n st st' :
  cycles rid timeout start n st st' ->
  forall fuel,
    wait_loop (n + fuel) rid timeout start st =
    wait_loop fuel rid timeout start st'.
Proof.
  induction 1 as [st|n st st1 st2 Hg Hp _ IH]; intros fuel; [reflexivity|].
  cbn [Nat.add]. rewrite (wait_loop_continue _ _ _ _ _ _ Hg Hp). apply IH.
Qed.

(** The iterations that fall through leave the manager's fields alone and
    add neither a fetched [completed] status nor any event that ends the
    poll. *)
Lemma cycles_trace rid timeout start n st st' :
  cycles rid timeout start n st st' ->
  exists evs,
    st' = after (world st') evs st /\
    count ends_poll evs = O /\
    count is_sleep evs = n.
Proof.
  induction 1 as [st|n st st1 st2 Hg Hp _ IH].
  - exists []. rewrite after_nil. auto.
  - destruct (poll_once_inv rid st) as (w & evs1 & Hst & Hsl & _ & Hcase).
    rewrite Hp in Hst, Hcase. cbn [fst snd] in Hst, Hcase.
    destruct Hcase as [Hends _]. destruct IH as (evs2 & Hst2 & He2 & Hs2).
    exists (evs1 ++ EvSleep 1 :: evs2)%list. subst st1.
    cbn [do_sleep snd] in Hst2. split.
    + rewrite Hst2 at 1. unfold after, log, set_world.
      cbn [world thread_id assistant_id stored_thread_id trace].
      rewrite <- !app_assoc. reflexivity.
    + rewrite !count_app. change (EvSleep 1 :: evs2) with ([EvSleep 1] ++ evs2)%list.
      rewrite !count_app. rewrite Hends, He2, Hsl, Hs2. split; reflexivity.
Qed.

Lemma wait_for_completion_at n fuel rid timeout st0 st x st' :
  cycles rid timeout (now (world st0)) n st0 st ->
  now (world st) - now (world st0) < timeout ->
  poll_once rid st = (Ok (Return x), st') ->
  (n < fuel)%nat ->
  wait_for_completion fuel rid timeout st0 = Some (Ok x, st').
Proof.
  intros Hc Hg Hp Hf. unfold wait_for_completion.
  replace fuel with (n + S (fuel - n - 1))%nat by lia.
  rewrite (wait_loop_cycles _ _ _ _ _ _ Hc).
  apply wait_loop_return; assumption.
Qed.

End Loop.

(** ** The run poller: outcomes *)

Section Poller.

Context {W : Type} {service : Service W} {tools : Tools W}.

Implicit Types (st : St W) (r : Run) (rid : string).

Lemma cycles_since rid timeout start n st0 st :
  cycles rid timeout start n st0 st ->
  exists evs,
    trace st = (trace st0 ++ evs)%list /\
    count ends_poll evs = O /\ count is_sleep evs = n.
Proof.
  intros Hc. destruct (cycles_trace _ _ _ _ _ _ Hc) as (evs & Hst & He & Hs).
  exists evs. split; [|auto]. rewrite Hst at 1. reflexivity.
Qed.

(** C1.  A poll in which [n] iterations fell through (whatever they were:
    waiting, or [requires_action] cycles with or without a submission) and
    whose next fetch, made before the deadline, reports [completed] returns
    that very run record as success, right after the fetch; the events of
    the whole invocation contain exactly one fetched [completed] status. *)
Theorem wait_for_completion_success n fuel rid timeout st0 st r w1 :
  cycles rid timeout (now (world st0)) n st0 st ->
  now (world st) - now (world st0) < timeout ->
  runs_retrieve (thread_id st) rid (world st) = (Ok r, w1) ->
  status r = "completed" ->
  (n < fuel)%nat ->
  wait_for_completion fuel rid timeout st0 =
    Some (Ok (Some r),
          after w1 [EvRunsRetrieve (thread_id st) rid (Ok r)] st) /\
  count is_success
    (since st0 (after w1 [EvRunsRetrieve (thread_id st) rid (Ok r)] st))
  = 1%nat.
Proof.
  intros Hc Hg Hr Hs Hf. split.
  - eapply wait_for_completion_at; eauto.
    apply poll_once_completed; assumption.
  - destruct (cycles_since _ _ _ _ _ _ Hc) as (evs & Htr & He & _).
    rewrite (since_app st0 _
               (evs ++ [EvRunsRetrieve (thread_id st) rid (Ok r)])%list).
    + rewrite count_app. pose proof (count_success_le evs) as Hle.
      unfold count at 2. cbn [filter is_success]. rewrite Hs, String.eqb_refl.
      cbn [length]. lia.
    + unfold after. cbn [trace]. rewrite Htr, <- app_assoc. reflexivity.
Qed.

(** C2.  At any iteration, a fetched status among failed, cancelled and
    expired makes the poller report the status and return failure: the
    report is the only event after the fetch (no submission, no sleep, no
    second fetch). *)
Theorem wait_for_completion_run_ended n fuel rid timeout st0 st r w1 :
  cycles rid timeout (now (world st0)) n st0 st ->
  now (world st) - now (world st0) < timeout ->
  runs_retrieve (thread_id st) rid (world st) = (Ok r, w1) ->
  str_in (status r) ["failed"; "cancelled"; "expired"] = true ->
  (n < fuel)%nat ->
  wait_for_completion fuel rid timeout st0 =
    Some (Ok None,
          after w1 [EvRunsRetrieve (thread_id st) rid (Ok r);
                    EvSystemMessage ("Run ended with status: " ++ status r)]
                st).
Proof.
  intros Hc Hg Hr Hs Hf. eapply wait_for_completion_at; eauto.
  apply poll_once_ended; assumption.
Qed.

(** With a clock that advances, the loop ends within the iterations its
    deadline leaves room for, and an exit that no event explains is the
    timeout. *)
Lemma wait_loop_total (Hclk : clock_advances) rid timeout start :
  forall fuel st,
    Z.max 0 (timeout - (now (world st) - start)) < Z.of_nat fuel ->
    exists res w evs,
      wait_loop fuel rid timeout start st = Some (res, after w evs st) /\
      (count ends_poll evs = O ->
       res = Ok None /\
       (exists evs', evs = (evs' ++ [EvSystemMessage "Run timed out"])%list) /\
       timeout <= now w - start).
Proof.
  induction fuel as [|fuel IH]; intros st Hfuel; [lia|].
  cbn [wait_loop]. destruct (Z.ltb_spec (now (world st) - start) timeout) as [Hg|Hg].
  - destruct (poll_once_inv rid st) as (w & evs & Hst & _ & Hmono & Hcase).
    specialize (Hmono Hclk).
    destruct (poll_once rid st) as [[[x|]|e] st1]; cbn [fst snd] in Hst, Hcase;
      subst st1.
    + exists (Ok x), w, evs. split; [reflexivity|]. intros Hz.
      destruct x as [r|]; [|lia]. destruct Hcase as [-> Hs]. exfalso.
      revert Hz. unfold count. cbn [filter ends_poll]. unfold terminal.
      cbn [str_in]. rewrite Hs, String.eqb_refl. discriminate.
    + destruct Hcase as [Hends _].
      pose proof (proj1 Hclk 1 w) as Hsleep.
      destruct (IH (snd (do_sleep 1 (after w evs st)))) as (res & w' & evs' & Hw & Hprop).
      { cbn [do_sleep snd log set_world world after]. lia. }
      exists res, w', (evs ++ EvSleep 1 :: evs')%list. split.
      * rewrite Hw. f_equal. f_equal. unfold after, do_sleep, log, set_world.
        cbn [snd world thread_id assistant_id stored_thread_id trace].
        rewrite <- !app_assoc. reflexivity.
      * rewrite count_app.
        change (EvSleep 1 :: evs') with ([EvSleep 1] ++ evs')%list.
        rewrite count_app. rewrite Hends. cbn [Nat.add]. intros Hz.
        destruct (Hprop Hz) as (Hres & (tl & Htl) & Hto).
        split; [assumption|]. split; [|assumption].
        exists (evs ++ EvSleep 1 :: tl)%list. rewrite Htl.
        rewrite <- app_assoc. reflexivity.
    + exists (Raise e), w, evs. split; [reflexivity|]. lia.
  - exists (Ok None), (world st), [EvSystemMessage "Run timed out"].
    split; [reflexivity|]. intros _. split; [reflexivity|].
    split; [exists []; reflexivity|]. lia.
Qed.

(** C4.  With a clock that advances, [wait_for_completion] returns for every
    behaviour of the service and of the tools, within [timeout] iterations.
    When no fetched status is terminal and no call raises, it returns
    failure, its last event is the timeout report, and the clock has
    advanced by at least [timeout].  The default deadline is 300. *)
Theorem wait_for_completion_times_out rid timeout st fuel :
  clock_advances ->
  (Z.to_nat timeout < fuel)%nat ->
  exists res st',
    wait_for_completion fuel rid timeout st = Some (res, st') /\
    (count ends_poll (since st st') = O ->
     res = Ok None /\
     (exists evs,
        since st st' = (evs ++ [EvSystemMessage "Run timed out"])%list) /\
     timeout <= now (world st') - now (world st)) /\
    default_timeout = 300.
Proof.
  intros Hclk Hfuel.
  destruct (wait_loop_total Hclk rid timeout (now (world st)) fuel st)
    as (res & w & evs & Hw & Hprop); [lia|].
  exists res, (after w evs st). split; [exact Hw|]. split; [|reflexivity].
  rewrite since_after. exact Hprop.
Qed.

End Poller.

(** ** The conversation controller *)

Section Controller.

Context {W : Type} {service : Service W} {tools : Tools W}.

Implicit Types (st : St W) (r : Run) (rid : string).

Lemma call_eq {A} (op : W -> result A * W) ev st res w' :
  op (world st) = (res, w') ->
  call op ev st = (res, after w' [ev res] st).
Proof. intros Hop. unfold call. rewrite Hop. reflexivity. Qed.

Lemma not_command user_input :
  is_command user_input = false ->
  str_in (lower user_input) ["exit"; "quit"] = false /\
  (lower user_input =? "reset")%string = false.
Proof.
  unfold is_command. cbn [str_in].
  destruct (lower user_input =? "exit")%string; [discriminate|].
  destruct (lower user_input =? "quit")%string; [discriminate|].
  destruct (lower user_input =? "reset")%string; [discriminate|].
  auto.
Qed.

(** The [for] loop: a cancellation for each active run in turn, up to the
    first that raises. *)
Lemma cancel_each_spec runs :
  forall st,
  exists w evs,
    snd (cancel_each runs st) = after w evs st /\
    count is_post evs = O /\
    match fst (cancel_each runs st) with
    | Ok _ => evs = map (cancel_ok (thread_id st)) (filter active runs)
    | Raise e =>
      exists done rid,
        evs = (map (cancel_ok (thread_id st)) done
               ++ [EvRunsCancel (thread_id st) rid (Raise e)])%list
    end.
Proof.
  induction runs as [|r runs IH]; intros st.
  - exists (world st), []. cbn [cancel_each ret fst snd filter map].
    rewrite after_nil. auto.
  - cbn [cancel_each filter]. fold (active r). destruct (active r); [|apply IH].
    unfold bind.
    destruct (runs_cancel (thread_id st) (run_id r) (world st))
      as [[[]|e] w1] eqn:Hc.
    + rewrite (call_eq _ _ _ _ _ Hc).
      destruct (IH (after w1 [EvRunsCancel (thread_id st) (run_id r) (Ok tt)]
                          st)) as (w & evs & Hst & Hpost & Hres).
      exists w, (EvRunsCancel (thread_id st) (run_id r) (Ok tt) :: evs).
      split; [rewrite Hst, after_after; reflexivity|].
      split; [exact Hpost|].
      destruct (fst (cancel_each runs _)).
      * cbn [map]. rewrite Hres. reflexivity.
      * destruct Hres as (done & rid & ->). exists (r :: done), rid.
        reflexivity.
    + rewrite (call_eq _ _ _ _ _ Hc). cbn [fst snd].
      exists w1, [EvRunsCancel (thread_id st) (run_id r) (Raise e)].
      split; [reflexivity|]. split; [reflexivity|].
      exists [], (run_id r). reflexivity.
Qed.

Lemma raised_cancel_ok tid done ev e :
  In ev (map (cancel_ok tid) done) -> raised ev = Some e -> False.
Proof.
  intros Hin Hr. apply in_map_iff in Hin. destruct Hin as (r & <- & _).
  discriminate.
Qed.

(** Every outcome of [cancel_active_runs]: the listing, then either all
    the cancellations, or the ones before the first exception and its
    report. *)
Lemma cancel_active_runs_spec st :
  exists w evs,
    cancel_active_runs st = (Ok tt, after w evs st) /\
    count is_post evs = O /\
    (forall runs w1,
       runs_list (thread_id st) (world st) = (Ok runs, w1) ->
       fst (cancel_each runs
              (after w1 [EvRunsList (thread_id st) (Ok runs)] st)) = Ok tt ->
       evs = EvRunsList (thread_id st) (Ok runs)
             :: map (cancel_ok (thread_id st)) (filter active runs)) /\
    (forall e w1,
       runs_list (thread_id st) (world st) = (Raise e, w1) ->
       w = w1 /\
       evs = [EvRunsList (thread_id st) (Raise e);
              EvSystemMessage ("Error canceling runs: " ++ e)%string]) /\
    (forall ev e,
       In ev evs -> raised ev = Some e ->
       exists pre,
         evs = (pre ++ [ev; EvSystemMessage
                              ("Error canceling runs: " ++ e)%string])%list).
Proof.
  unfold cancel_active_runs, try_catch, bind.
  destruct (runs_list (thread_id st) (world st)) as [[runs|e] w1] eqn:Hl;
    rewrite (call_eq _ _ _ _ _ Hl).
  - destruct (cancel_each_spec runs
                (after w1 [EvRunsList (thread_id st) (Ok runs)] st))
      as (w & evs & Hst & Hpost & Hres).
    destruct (cancel_each runs _) as [[[]|e] st1] eqn:Hce;
      cbn [fst snd after thread_id] in Hst, Hres; subst st1;
      rewrite after_after.
    + exists w, ([EvRunsList (thread_id st) (Ok runs)] ++ evs)%list.
      split; [reflexivity|]. split; [rewrite count_app, Hpost; reflexivity|].
      split.
      * intros runs' w1' [= <- <-] _. rewrite Hres. reflexivity.
      * split; [intros ? ? [=]|].
        intros ev e [<-|Hin] Hr; [discriminate|]. exfalso.
        rewrite Hres in Hin. eapply raised_cancel_ok; eauto.
    + destruct Hres as (done & rid & ->).
      exists w, ([EvRunsList (thread_id st) (Ok runs)]
                 ++ (map (cancel_ok (thread_id st)) done
                     ++ [EvRunsCancel (thread_id st) rid (Raise e)])
                 ++ [EvSystemMessage ("Error canceling runs: " ++ e)%string])%list.
      split.
      { unfold print_system_message, log, after.
        cbn [world thread_id assistant_id stored_thread_id trace].
        rewrite <- !app_assoc. reflexivity. }
      split; [rewrite !count_app in *; rewrite Hpost; reflexivity|].
      split; [intros runs' w1' [= <- <-] Hok; rewrite Hce in Hok;
              discriminate|].
      split; [intros ? ? [=]|].
      intros ev e' Hin Hr.
      cbn [app] in Hin. destruct Hin as [<-|Hin]; [discriminate|].
      rewrite <- app_assoc in Hin. apply in_app_or in Hin.
      destruct Hin as [Hin|[<-|[<-|[]]]].
      * exfalso. eapply raised_cancel_ok; eauto.
      * cbn [raised] in Hr. injection Hr as <-.
        exists (EvRunsList (thread_id st) (Ok runs)
                :: map (cancel_ok (thread_id st)) done).
        cbn [app]. rewrite <- !app_assoc. reflexivity.
      * discriminate.
  - exists w1, [EvRunsList (thread_id st) (Raise e);
                EvSystemMessage ("Error canceling runs: " ++ e)%string].
    split.
    { unfold print_system_message, log, after.
      cbn [world thread_id assistant_id stored_thread_id trace].
      rewrite <- !app_assoc. reflexivity. }
    split; [reflexivity|]. split; [intros ? ? [=]|].
    split; [intros ? ? [= <- <-]; auto|].
    intros ev e' [<-|[<-|[]]] Hr; [|discriminate].
    cbn [raised] in Hr. injection Hr as <-. exists []. reflexivity.
Qed.

Lemma start_run_spec user_input st w evs res w2 :
  cancel_active_runs st = (Ok tt, after w evs st) ->
  messages_create (thread_id st) user_input w = (res, w2) ->
  exists rest,
    start_run user_input st =
      (match res with
       | Ok _ => fst (runs_create (thread_id st) (assistant_id st) w2)
       | Raise e => Raise e
       end,
       after match res with
             | Ok _ => snd (runs_create (thread_id st) (assistant_id st) w2)
             | Raise _ => w2
             end
             (evs ++ EvMessagesCreate (thread_id st) user_input res :: rest)
             st) /\
    match res with
    | Ok _ =>
      rest = [EvRunsCreate (thread_id st) (assistant_id st)
                (fst (runs_create (thread_id st) (assistant_id st) w2))]
    | Raise _ => rest = []
    end.
Proof.
  intros Hc Hp. unfold start_run, bind. rewrite Hc.
  cbn [after thread_id]. erewrite call_eq by (cbn [after world]; exact Hp).
  rewrite after_after. destruct res as [[]|e].
  - cbn [after thread_id assistant_id].
    destruct (runs_create (thread_id st) (assistant_id st) w2)
      as [res' w3] eqn:Hrun.
    erewrite call_eq by (cbn [world]; exact Hrun).
    eexists. split; [|reflexivity]. cbn [fst snd].
    unfold after. cbn [world thread_id assistant_id stored_thread_id trace].
    rewrite <- !app_assoc. reflexivity.
  - exists []. split; reflexivity.
Qed.


(** C9.  [cancel_active_runs] returns normally in every world.  An
    exception of the listing or of a cancellation is reported and ends the
    cancelling; the turn goes on all the same: [start_run] posts the
    message next and, when the post succeeds, starts the run. *)
Theorem cancel_active_runs_never_raises st user_input :
  exists w evs,
    cancel_active_runs st = (Ok tt, after w evs st) /\
    (forall e w1,
       runs_list (thread_id st) (world st) = (Raise e, w1) ->
       evs = [EvRunsList (thread_id st) (Raise e);
              EvSystemMessage ("Error canceling runs: " ++ e)%string]) /\
    (forall ev e,
       In ev evs -> raised ev = Some e ->
       exists pre,
         evs = (pre ++ [ev; EvSystemMessage
                              ("Error canceling runs: " ++ e)%string])%list) /\
    exists res rest,
      res = fst (messages_create (thread_id st) user_input w) /\
      since st (snd (start_run user_input st)) =
        (evs ++ EvMessagesCreate (thread_id st) user_input res :: rest)%list /\
      (forall u, res = Ok u ->
         exists res',
           rest = [EvRunsCreate (thread_id st) (assistant_id st) res'] /\
           fst (start_run user_input st) = res').
Proof.
  destruct (cancel_active_runs_spec st) as (w & evs & Hc & _ & _ & Hl & Hr).
  exists w, evs. split; [exact Hc|]. split; [intros e w1 He; apply (Hl e w1 He)|].
  split; [exact Hr|].
  destruct (messages_create (thread_id st) user_input w) as [res w2] eqn:Hp.
  destruct (start_run_spec _ _ _ _ _ _ Hc Hp) as (rest & Hs & Hrest).
  exists res, rest. split; [reflexivity|]. rewrite Hs. cbn [fst snd].
  split; [apply since_after|].
  intros u ->. eexists. split; [exact Hrest|reflexivity].
Qed.


Lemma reset_thread_spec st :
  reset_thread st =
  match threads_create (world st) with
  | (Ok tid, w) =>
    (Ok tt,
     mkSt w tid (assistant_id st) (Some tid)
          (trace st ++
           [EvClearThreadId; EvThreadsCreate (Ok tid); EvSaveThreadId tid;
            EvSystemMessage "New conversation thread created.";
            EvSystemMessage "Conversation thread has been reset."]))
  | (Raise e, w) =>
    (Raise e,
     mkSt w (thread_id st) (assistant_id st) None
          (trace st ++ [EvClearThreadId; EvThreadsCreate (Raise e)]))
  end.
Proof.
  unfold reset_thread, create_new_thread, bind, clear_thread_id, call,
    set_thread_id, save_thread_id, print_system_message, log, set_world.
  cbn [world thread_id assistant_id stored_thread_id trace].
  destruct (threads_create (world st)) as [[tid|e] w];
    cbn [world thread_id assistant_id stored_thread_id trace];
    rewrite <- ?app_assoc; reflexivity.
Qed.

(** C8, amended.  Every [reset] command first clears the persisted
    identifier and then asks the service for a thread.  When the service
    answers, the identifier it issued, whatever it is, becomes the thread
    in use and is persisted, and the session goes on.  When the creation
    raises, nothing is persisted and the exception is handed to the
    recovery path of the turn. *)
Theorem reset_takes_issued_thread fuel user_input st :
  lower user_input = "reset" ->
  stored_thread_id (snd (clear_thread_id st)) = None /\
  process_user_input fuel user_input st =
  Some
    match threads_create (world st) with
    | (Ok tid, w) =>
      (Ok true,
       mkSt w tid (assistant_id st) (Some tid)
            (trace st ++
             [EvClearThreadId; EvThreadsCreate (Ok tid); EvSaveThreadId tid;
              EvSystemMessage "New conversation thread created.";
              EvSystemMessage "Conversation thread has been reset."]))
    | (Raise e, w) =>
      (recover e ;;; ret true)
        (mkSt w (thread_id st) (assistant_id st) None
              (trace st ++ [EvClearThreadId; EvThreadsCreate (Raise e)]))
    end.
Proof.
  intros Hcmd. split; [reflexivity|].
  unfold process_user_input, turn_body.
  rewrite Hcmd. change (str_in "reset" ["exit"; "quit"]) with false.
  rewrite String.eqb_refl. unfold bind at 1. rewrite reset_thread_spec.
  destruct (threads_create (world st)) as [[tid|e] w]; reflexivity.
Qed.

(** C3.  At any iteration, an exception raised by the tools while the run
    requires action makes the poller report it and return failure, with
    nothing done after the report.  The poller returns normally, and the
    turn it belongs to ends with [process_user_input] returning [True],
    the thread unchanged. *)
Theorem wait_for_completion_tool_error n fuel rid timeout st0 st r w1 e w2 :
  cycles rid timeout (now (world st0)) n st0 st ->
  now (world st) - now (world st0) < timeout ->
  runs_retrieve (thread_id st) rid (world st) = (Ok r, w1) ->
  status r = "requires_action" ->
  handle_tool_calls r w1 = (Raise e, w2) ->
  (n < fuel)%nat ->
  let st' :=
    after w2 [EvRunsRetrieve (thread_id st) rid (Ok r);
              EvHandleToolCalls r (Raise e);
              EvSystemMessage ("Error handling tool calls: " ++ e)%string]
          st in
  wait_for_completion fuel rid timeout st0 = Some (Ok None, st') /\
  forall user_input s run,
    is_command user_input = false ->
    start_run user_input s = (Ok run, st0) ->
    run_id run = rid -> timeout = default_timeout ->
    process_user_input fuel user_input s = Some (Ok true, st').
Proof.
  intros Hc Hg Hr Hs Ht Hf st'.
  assert (Hw : wait_for_completion fuel rid timeout st0 = Some (Ok None, st')).
  { eapply wait_for_completion_at; eauto.
    eapply poll_once_tool_error; eauto. }
  split; [exact Hw|].
  intros user_input s run Hcmd Hstart <- ->.
  destruct (not_command _ Hcmd) as [Hexit Hreset].
  unfold process_user_input, turn_body, turn.
  rewrite Hexit, Hreset, Hstart, Hw. reflexivity.
Qed.

End Controller.

(** ** After an iteration that falls through *)

Section NextIteration.

Context {W : Type} {service : Service W} {tools : Tools W}.

Implicit Types (st : St W) (r : Run) (rid : string).

(** The loop over two iterations, the first of which falls through: the
    second starts in the state the sleep leaves. *)
Lemma wait_loop_second fuel rid timeout start st st1 :
  now (world st) - start < timeout ->
  poll_once rid st = (Ok Continue, st1) ->
  (timeout <= now (sleep 1 (world st1)) - start ->
   wait_loop (S (S fuel)) rid timeout start st =
     Some (Ok None,
           after (sleep 1 (world st1))
                 [EvSleep 1; EvSystemMessage "Run timed out"] st1)) /\
  (now (sleep 1 (world st1)) - start < timeout ->
   forall x st2,
     poll_once rid (after (sleep 1 (world st1)) [EvSleep 1] st1) = (x, st2) ->
     x <> Ok Continue ->
     wait_loop (S (S fuel)) rid timeout start st = Some (loop_result x, st2)).
Proof.
  intros Hg Hp. split.
  - intros Hto. rewrite (wait_loop_continue _ _ _ _ _ _ Hg Hp).
    cbn [wait_loop after world].
    destruct (Z.ltb_spec (now (sleep 1 (world st1)) - start) timeout); [lia|].
    flat.
  - intros Hg2 x st2 Hp2 Hx. rewrite (wait_loop_continue _ _ _ _ _ _ Hg Hp).
    cbn [wait_loop].
    change (world (after (sleep 1 (world st1)) [EvSleep 1] st1))
      with (sleep 1 (world st1)).
    rewrite (proj2 (Z.ltb_lt _ _) Hg2), Hp2.
    destruct x as [[r|]|e]; [reflexivity|contradiction|reflexivity].
Qed.

(** C10.  An iteration that does not leave the loop is one of the three
    cases of [falls_through] (among them both [requires_action] cases),
    and each of them is followed by [time.sleep(1)] before anything else:
    the deadline is checked, and the next fetch made, in the world the
    sleep leaves, and whatever ends the loop then comes after the event of
    that sleep. *)
Theorem every_iteration_sleeps fuel rid timeout start st st1 :
  now (world st) - start < timeout ->
  poll_once rid st = (Ok Continue, st1) ->
  (exists w evs,
     falls_through rid st w evs /\ st1 = after w evs st /\
     count is_sleep evs = O) /\
  (forall w evs, falls_through rid st w evs ->
     poll_once rid st = (Ok Continue, after w evs st)) /\
  (timeout <= now (sleep 1 (world st1)) - start ->
   wait_loop (S (S fuel)) rid timeout start st =
     Some (Ok None,
           after (sleep 1 (world st1))
                 [EvSleep 1; EvSystemMessage "Run timed out"] st1)) /\
  (now (sleep 1 (world st1)) - start < timeout ->
   forall x st2,
     poll_once rid (after (sleep 1 (world st1)) [EvSleep 1] st1) = (x, st2) ->
     x <> Ok Continue ->
     wait_loop (S (S fuel)) rid timeout start st = Some (loop_result x, st2)) /\
  wait_loop (S fuel) rid timeout start st =
  wait_loop fuel rid timeout start
            (after (sleep 1 (world st1)) [EvSleep 1] st1).
Proof.
  intros Hg Hp. split; [|split; [|split; [|split]]].
  - destruct (poll_once_inv rid st) as (w & evs & Hst & Hsl & _ & Hcase).
    rewrite Hp in Hst, Hcase. cbn [fst snd] in Hst, Hcase.
    exists w, evs. tauto.
  - intros w evs. apply falls_through_continue.
  - apply (wait_loop_second fuel _ _ _ _ _ Hg Hp).
  - apply (wait_loop_second fuel _ _ _ _ _ Hg Hp).
  - apply wait_loop_continue; assumption.
Qed.

End NextIteration.

(** ** The poller over the tool registry *)

Section Batch.

Context {W : Type} {service : Service W}.

Variable registry : string -> option (@handler W).

Let tools : Tools W := registry_tools registry.

#[local] Existing Instance tools.

Lemma dispatch_all_ids calls :
  forall w outs w',
    dispatch_all registry calls w = (Ok outs, w') ->
    map tool_call_id outs = map call_id calls.
Proof.
  induction calls as [|c calls IH]; intros w outs w' Hd; cbn [dispatch_all] in Hd.
  - injection Hd as <- _. reflexivity.
  - destruct (registry (call_name c)) as [h|]; [|discriminate].
    destruct (h (call_arguments c) w) as [[out|e] w1]; [|discriminate].
    destruct (dispatch_all registry calls w1) as [[outs'|e] w2] eqn:Hrest;
      [|discriminate].
    injection Hd as <- _. cbn [map tool_call_id]. f_equal. eapply IH; eauto.
Qed.

(** C5.  For a fetched [requires_action] run with N pending calls that the
    registry answers in the world [w2], the outputs are N pairs carrying
    the call ids in the order of the calls.  When there is at least one,
    the iteration calls the submission of the service once, on [w2] and
    with exactly these pairs: the state it leaves holds the world and the
    answer of that call, and the only submission among its events is this
    one.  When there is none, the service is not called: the iteration
    leaves the world [w2] of the tools, and the loop goes on with the
    sleep and, before the deadline, the next fetch. *)
Theorem tool_outputs_one_batch rid st r w1 outs w2 :
  runs_retrieve (thread_id st) rid (world st) = (Ok r, w1) ->
  status r = "requires_action" ->
  dispatch_all registry (tool_calls r) w1 = (Ok outs, w2) ->
  length outs = length (tool_calls r) /\
  map tool_call_id outs = map call_id (tool_calls r) /\
  match outs with
  | [] =>
    poll_once rid st =
      (Ok Continue,
       after w2 [EvRunsRetrieve (thread_id st) rid (Ok r);
                 EvHandleToolCalls r (Ok [])] st) /\
    forall fuel timeout start,
      now (world st) - start < timeout ->
      (timeout <= now (sleep 1 w2) - start ->
       wait_loop (S (S fuel)) rid timeout start st =
         Some (Ok None,
               after (sleep 1 w2)
                     [EvRunsRetrieve (thread_id st) rid (Ok r);
                      EvHandleToolCalls r (Ok []); EvSleep 1;
                      EvSystemMessage "Run timed out"] st)) /\
      (now (sleep 1 w2) - start < timeout ->
       forall x st2,
         poll_once rid
           (after (sleep 1 w2)
                  [EvRunsRetrieve (thread_id st) rid (Ok r);
                   EvHandleToolCalls r (Ok []); EvSleep 1] st) = (x, st2) ->
         x <> Ok Continue ->
         wait_loop (S (S fuel)) rid timeout start st
           = Some (loop_result x, st2))
  | _ :: _ =>
    let res := fst (runs_submit_tool_outputs (thread_id st) rid outs w2) in
    let w3 := snd (runs_submit_tool_outputs (thread_id st) rid outs w2) in
    poll_once rid st =
      (match res with
       | Ok _ => Ok Continue
       | Raise _ => Ok (Return None)
       end,
       after w3
         ([EvRunsRetrieve (thread_id st) rid (Ok r);
           EvHandleToolCalls r (Ok outs);
           EvSubmitToolOutputs (thread_id st) rid outs res]
          ++ match res with
             | Ok _ => []
             | Raise e =>
               [EvSystemMessage ("Error handling tool calls: " ++ e)%string]
             end)%list st) /\
    filter is_submit (since st (snd (poll_once rid st))) =
      [EvSubmitToolOutputs (thread_id st) rid outs res]
  end.
Proof.
  intros Hr Hs Hd.
  pose proof (dispatch_all_ids _ _ _ _ Hd) as Hids.
  split; [rewrite <- (length_map tool_call_id), Hids, length_map; reflexivity|].
  split; [exact Hids|].
  assert (Ht : handle_tool_calls r w1 = (Ok outs, w2)) by exact Hd.
  destruct outs as [|o outs].
  - pose proof (poll_once_no_outputs _ _ _ _ _ Hr Hs Ht) as Hp.
    split; [exact Hp|]. intros fuel timeout start Hg.
    destruct (wait_loop_second fuel _ _ _ _ _ Hg Hp) as [Hlate Hnext].
    cbn [after world] in Hlate, Hnext. split.
    + intros Hto. rewrite (Hlate Hto), after_after. reflexivity.
    + intros Hg2 x st2 Hp2 Hx. apply Hnext; [exact Hg2| |exact Hx].
      rewrite <- Hp2, after_after. reflexivity.
  - destruct (runs_submit_tool_outputs (thread_id st) rid (o :: outs) w2)
      as [res w3] eqn:Hsub.
    assert (Hne : o :: outs <> []) by discriminate.
    cbn [fst snd].
    rewrite (poll_once_submit _ _ _ _ _ _ _ _ Hr Hs Ht Hne Hsub).
    split; [reflexivity|]. cbn [snd]. rewrite since_after.
    destruct res; reflexivity.
Qed.

End Batch.

(** ** Runs of the program in the scripted world *)

Lemma sim_tools_keep_world calls :
  forall w, snd (dispatch_all Sim.registry calls w) = w.
Proof.
  induction calls as [|c calls IH]; intros w; cbn [dispatch_all];
    [reflexivity|].
  unfold Sim.registry at 1.
  destruct (call_name c =? "add")%string.
  - specialize (IH w).
    destruct (dispatch_all Sim.registry calls w) as [[outs|e] w']; exact IH.
  - destruct (call_name c =? "fail")%string; reflexivity.
Qed.

Lemma sim_clock_advances : @clock_advances Sim.t Sim.service Sim.tools.
Proof.
  repeat split.
  - intros d w. cbn. lia.
  - intros tid rid w. cbn. unfold Sim.fetch.
    destruct (Sim.fetches w); cbn; lia.
  - intros r w. cbn. rewrite sim_tools_keep_world. lia.
  - intros tid rid outs w. cbn. lia.
Qed.

Lemma wait_for_completion_success_witness :
  exists st',
    wait_for_completion 5 "run_1" 300 Sim.two_cycles
      = Some (Ok (Some Sim.done), st') /\
    count is_success (since Sim.two_cycles st') = 1%nat.
Proof.
  eexists.
  eapply (wait_for_completion_success 2 5 "run_1" 300 Sim.two_cycles).
  - eapply cycles_S; [vm_compute; reflexivity|reflexivity|].
    eapply cycles_S; [vm_compute; reflexivity|reflexivity|].
    apply cycles_O.
  - vm_compute. reflexivity.
  - reflexivity.
  - reflexivity.
  - lia.
Defined.

Lemma wait_for_completion_run_ended_witness :
  exists st',
    wait_for_completion 5 "run_1" 300 Sim.fails_second = Some (Ok None, st') /\
    since Sim.fails_second st' =
      [EvRunsRetrieve "thread_1" "run_1" (Ok (Sim.pending "run_1"));
       EvSleep 1;
       EvRunsRetrieve "thread_1" "run_1" (Ok (mkRun "run_1" "failed" []));
       EvSystemMessage "Run ended with status: failed"].
Proof.
  eexists. split.
  - eapply (wait_for_completion_run_ended 1 5 "run_1" 300 Sim.fails_second).
    + eapply cycles_S; [vm_compute; reflexivity|reflexivity|apply cycles_O].
    + vm_compute. reflexivity.
    + reflexivity.
    + reflexivity.
    + lia.
  - reflexivity.
Defined.

Lemma wait_for_completion_tool_error_witness :
  exists st',
    wait_for_completion 5 "run_1" default_timeout
      (snd (start_run "What is 2+2?" Sim.tool_crash)) = Some (Ok None, st') /\
    process_user_input 5 "What is 2+2?" Sim.tool_crash = Some (Ok true, st') /\
    thread_id st' = "thread_1".
Proof.
  eexists.
  pose proof
    (wait_for_completion_tool_error 0 5 "run_1" default_timeout
       (snd (start_run "What is 2+2?" Sim.tool_crash)) _ _ _ _ _
       (cycles_O _ _ _ _) eq_refl eq_refl eq_refl eq_refl
       (Nat.lt_0_succ 4)) as [Hpoll Hturn].
  split; [exact Hpoll|]. split; [|reflexivity].
  apply (Hturn "What is 2+2?" Sim.tool_crash (Sim.pending "run_1"));
    reflexivity.
Defined.

Lemma every_iteration_sleeps_witness :
  option_map (fun p => (fst p, trace (snd p), Sim.clock (world (snd p))))
             (wait_loop 2 "run_1" 300 0 Cases.one_cycle) =
  Some (Ok (Some Sim.done),
        [EvRunsRetrieve "thread_1" "run_1"
           (Ok (Sim.asks [mkToolCall "call_1" "add" "{}"]));
         EvHandleToolCalls (Sim.asks [mkToolCall "call_1" "add" "{}"])
           (Ok [mkToolOutput "call_1" "4"]);
         EvSubmitToolOutputs "thread_1" "run_1" [mkToolOutput "call_1" "4"]
           (Ok (Sim.pending "run_1"));
         EvSleep 1;
         EvRunsRetrieve "thread_1" "run_1" (Ok Sim.done)],
        1).
Proof.
  pose (st1 := snd (poll_once "run_1" Cases.one_cycle)).
  pose (slept := after (sleep 1 (world st1)) [EvSleep 1] st1).
  destruct (every_iteration_sleeps (service := Sim.service)
              (tools := Sim.tools) 0 "run_1" 300 0 Cases.one_cycle st1)
    as (_ & _ & _ & Hnext & _).
  - vm_compute. reflexivity.
  - vm_compute. reflexivity.
  - assert (Hg2 : now (sleep 1 (world st1)) - 0 < 300)
      by (vm_compute; reflexivity).
    assert (Hp2 : poll_once "run_1" slept =
                  (Ok (Return (Some Sim.done)),
                   snd (poll_once "run_1" slept)))
      by (vm_compute; reflexivity).
    assert (Hx : Ok (Return (Some Sim.done)) <> Ok Continue) by discriminate.
    rewrite (Hnext Hg2 _ _ Hp2 Hx). vm_compute. reflexivity.
Defined.

Lemma wait_for_completion_times_out_witness :
  exists st',
    wait_for_completion 4 "run_1" 3 Sim.stuck = Some (Ok None, st') /\
    3 <= now (world st') - now (world Sim.stuck).
Proof.
  destruct (wait_for_completion_times_out "run_1" 3 Sim.stuck 4
              sim_clock_advances)
    as (res & st' & Hw & Hto & _).
  - simpl. lia.
  - exists st'.
    assert (Hquiet : count ends_poll (since Sim.stuck st') = O).
    { vm_compute in Hw. injection Hw as _ <-. reflexivity. }
    destruct (Hto Hquiet) as (-> & _ & Hclock). split; assumption.
Defined.

Lemma tool_outputs_one_batch_witness :
  poll_once "run_1" Sim.two_calls =
    (Ok Continue,
     after (Sim.with_fetches [] Sim.quiet)
       [EvRunsRetrieve "thread_1" "run_1"
          (Ok (Sim.asks [mkToolCall "call_1" "add" "{}";
                         mkToolCall "call_2" "add" "{}"]));
        EvHandleToolCalls
          (Sim.asks [mkToolCall "call_1" "add" "{}";
                     mkToolCall "call_2" "add" "{}"])
          (Ok [mkToolOutput "call_1" "4"; mkToolOutput "call_2" "4"]);
        EvSubmitToolOutputs "thread_1" "run_1"
          [mkToolOutput "call_1" "4"; mkToolOutput "call_2" "4"]
          (Ok (Sim.pending "run_1"))]
       Sim.two_calls) /\
  filter is_submit (since Sim.two_calls (snd (poll_once "run_1" Sim.two_calls)))
  = [EvSubmitToolOutputs "thread_1" "run_1"
       [mkToolOutput "call_1" "4"; mkToolOutput "call_2" "4"]
       (Ok (Sim.pending "run_1"))].
Proof.
  destruct (tool_outputs_one_batch (service := Sim.service) Sim.registry
              "run_1" Sim.two_calls
              (Sim.asks [mkToolCall "call_1" "add" "{}";
                         mkToolCall "call_2" "add" "{}"])
              (Sim.with_fetches [] Sim.quiet)
              [mkToolOutput "call_1" "4"; mkToolOutput "call_2" "4"]
              (Sim.with_fetches [] Sim.quiet)
              eq_refl eq_refl eq_refl)
    as (_ & _ & Hp & Hsub).
  split; [exact Hp|exact Hsub].
Defined.





(** C8, as stated, fails: the service may answer with the identifier of
    the thread in use, which the program takes as it is; and when the
    service cannot be reached, no identifier is created or persisted. *)
Lemma reset_without_new_identifier :
  (outcome (process_user_input 5 "reset" Cases.reissued) = Some (Ok true) /\
   thread_id (final_state (process_user_input 5 "reset" Cases.reissued)
                          Cases.reissued)
   = thread_id Cases.reissued) /\
  (outcome (process_user_input 5 "reset" Sim.unreachable)
   = Some (Raise "Connection error.") /\
   stored_thread_id
     (final_state (process_user_input 5 "reset" Sim.unreachable)
                  Sim.unreachable) = None /\
   thread_id (final_state (process_user_input 5 "reset" Sim.unreachable)
                          Sim.unreachable)
   = thread_id Sim.unreachable).
Proof.
  repeat split; reflexivity.
Qed.

Lemma reset_takes_issued_thread_witness :
  process_user_input 5 "Reset" Sim.stuck =
    Some (Ok true,
          mkSt (Sim.mk 0 [] [] [] (Ok []) (Ok tt) (Ok (Sim.pending "run_1"))
                  (Ok (Sim.pending "run_1"))
                  (Ok [mkMessage "assistant" [TextBlock "4"]]))
               "thread_2" "asst_1" (Some "thread_2")
               [EvClearThreadId; EvThreadsCreate (Ok "thread_2");
                EvSaveThreadId "thread_2";
                EvSystemMessage "New conversation thread created.";
                EvSystemMessage "Conversation thread has been reset."]).
Proof.
  destruct (reset_takes_issued_thread (service := Sim.service)
              (tools := Sim.tools) 5 "Reset" Sim.stuck) as [_ Hres].
  - reflexivity.
  - rewrite Hres. reflexivity.
Defined.

(** * Further properties *)

(** ** The poller: what its results mean *)

Section PollerResults.

Context {W : Type} {service : Service W} {tools : Tools W}.

Implicit Types (st : St W) (r : Run) (rid : string).

Lemma poll_once_iteration rid st :
  exists x w evs,
    iteration rid st x w evs /\ poll_once rid st = (x, after w evs st).
Proof.
  destruct (runs_retrieve (thread_id st) rid (world st)) as [[r|e] w1] eqn:Hr.
  2:{ do 3 eexists. split; [eapply it_fetch_raises; eauto|].
      apply poll_once_raise; assumption. }
  destruct (String.eqb_spec (status r) "completed") as [Hc|Hc].
  { do 3 eexists. split; [eapply it_completed; eauto|].
    apply poll_once_completed; assumption. }
  destruct (String.eqb_spec (status r) "requires_action") as [Ha|Ha].
  - destruct (handle_tool_calls r w1) as [[outs|e] w2] eqn:Ht.
    + destruct outs as [|o outs].
      * do 3 eexists. split; [apply it_falls_through; eapply ft_no_outputs; eauto|].
        eapply poll_once_no_outputs; eauto.
      * destruct (runs_submit_tool_outputs (thread_id st) rid (o :: outs) w2)
          as [[r'|e] w3] eqn:Hsub.
        -- do 3 eexists. split.
           ++ apply it_falls_through. eapply ft_submitted; eauto. discriminate.
           ++ rewrite (poll_once_submit _ _ _ _ _ _ _ _ Hr Ha Ht
                         ltac:(discriminate) Hsub). reflexivity.
        -- do 3 eexists. split.
           ++ eapply it_submit_raises; eauto. discriminate.
           ++ rewrite (poll_once_submit _ _ _ _ _ _ _ _ Hr Ha Ht
                         ltac:(discriminate) Hsub). reflexivity.
    + do 3 eexists. split; [eapply it_tool_raises; eauto|].
      eapply poll_once_tool_error; eauto.
  - destruct (str_in (status r) ["failed"; "cancelled"; "expired"]) eqn:He.
    + do 3 eexists. split; [eapply it_ended; eauto|].
      apply poll_once_ended; assumption.
    + assert (Hterm : str_in (status r)
                        ["completed"; "failed"; "cancelled"; "expired"] = false).
      { cbn [str_in] in He |- *.
        destruct (String.eqb_spec (status r) "completed"); [contradiction|].
        exact He. }
      do 3 eexists. split; [apply it_falls_through; eapply ft_waiting; eauto|].
      apply poll_once_waiting; assumption.
Qed.

Lemma falls_through_events rid st w evs :
  falls_through rid st w evs ->
  forallb (poller_event (thread_id st) rid) evs = true /\
  (count is_fetch evs = 1)%nat.
Proof.
  intros [r w1 _ _ _|r w1 w2 _ _ _|r w1 outs w2 r' w3 _ _ _ _ _];
    cbn [forallb poller_event]; rewrite !String.eqb_refl; auto.
Qed.

Lemma iteration_events rid st x w evs :
  iteration rid st x w evs ->
  forallb (poller_event (thread_id st) rid) evs = true /\
  (count is_fetch evs = 1)%nat.
Proof.
  intros [e w1 _|r w1 _ _|r w1 _ _|r w1 e w2 _ _ _|r w1 outs w2 e w3 _ _ _ _ _
          |w' evs' Hft];
    try (cbn [forallb poller_event]; rewrite !String.eqb_refl; auto; fail).
  eapply falls_through_events; eauto.
Qed.

(** What a returned result of the loop says about the events behind it. *)
Lemma wait_loop_inv rid timeout start :
  forall fuel st res st',
    wait_loop fuel rid timeout start st = Some (res, st') ->
    exists w evs,
      st' = after w evs st /\
      forallb (poller_event (thread_id st) rid) evs = true /\
      match res with
      | Ok (Some r) =>
        status r = "completed" /\
        exists pre,
          evs = (pre ++ [EvRunsRetrieve (thread_id st) rid (Ok r)])%list
      | Ok None =>
        exists pre msg,
          evs = (pre ++ [EvSystemMessage msg])%list /\ poller_report msg
      | Raise e =>
        exists pre,
          evs = (pre ++ [EvRunsRetrieve (thread_id st) rid (Raise e)])%list
      end.
Proof.
  induction fuel as [|fuel IH]; intros st res st' Hw; [discriminate|].
  cbn [wait_loop] in Hw.
  destruct (now (world st) - start <? timeout).
  - destruct (poll_once_iteration rid st) as (x & w & evs & Hit & Hp).
    rewrite Hp in Hw. pose proof (iteration_events _ _ _ _ _ Hit) as [Hev _].
    destruct Hit as [e w1 _|r w1 _ Hs|r w1 _ Hs|r w1 e w2 _ _ _
                     |r w1 outs w2 e w3 _ _ _ _ _|w' evs' Hft];
      try (injection Hw as <- <-; do 2 eexists; split; [reflexivity|];
           split; [exact Hev|]).
    + exists []. reflexivity.
    + split; [assumption|]. exists []. reflexivity.
    + eexists [_], _. split; [reflexivity|]. right. left.
      exists (status r). split; [exact Hs|reflexivity].
    + eexists [_; _], _. split; [reflexivity|]. right. right.
      exists e. reflexivity.
    + eexists [_; _; _], _. split; [reflexivity|]. right. right.
      exists e. reflexivity.
    + apply IH in Hw. destruct Hw as (w2 & evs2 & -> & Hev2 & Hres).
      cbn [do_sleep snd log set_world after world thread_id assistant_id
             stored_thread_id trace] in *.
      exists w2, (evs' ++ EvSleep 1 :: evs2)%list. split.
      { flat. }
      split.
      { rewrite forallb_app, Hev. cbn [forallb poller_event andb].
        rewrite Z.eqb_refl. exact Hev2. }
      destruct res as [[r|]|e].
      * destruct Hres as (Hs & pre & ->). split; [assumption|].
        exists (evs' ++ EvSleep 1 :: pre)%list.
        rewrite <- app_assoc. reflexivity.
      * destruct Hres as (pre & msg & -> & Hm).
        exists (evs' ++ EvSleep 1 :: pre)%list, msg.
        rewrite <- app_assoc. auto.
      * destruct Hres as (pre & ->).
        exists (evs' ++ EvSleep 1 :: pre)%list.
        rewrite <- app_assoc. reflexivity.
  - injection Hw as <- <-. exists (world st), [EvSystemMessage "Run timed out"].
    split; [reflexivity|]. split; [reflexivity|].
    exists [], "Run timed out". split; [reflexivity|]. left. reflexivity.
Qed.

End PollerResults.

Section PollerExtras.

Context {W : Type} {service : Service W} {tools : Tools W}.

Implicit Types (st : St W) (r : Run) (rid : string).

Lemma wait_for_completion_inv fuel rid timeout st res st' :
  wait_for_completion fuel rid timeout st = Some (res, st') ->
  exists w,
    st' = after w (since st st') st /\
    forallb (poller_event (thread_id st) rid) (since st st') = true /\
    match res with
    | Ok (Some r) =>
      status r = "completed" /\
      exists pre,
        since st st' =
          (pre ++ [EvRunsRetrieve (thread_id st) rid (Ok r)])%list
    | Ok None =>
      exists pre msg,
        since st st' = (pre ++ [EvSystemMessage msg])%list /\
        poller_report msg
    | Raise e =>
      exists pre,
        since st st' =
          (pre ++ [EvRunsRetrieve (thread_id st) rid (Raise e)])%list
    end.
Proof.
  intros Hw. apply wait_loop_inv in Hw.
  destruct Hw as (w & evs & -> & Hev & Hres).
  exists w. rewrite since_after. auto.
Qed.

(** X1.  The poller returns a run record only when that record was fetched
    with status [completed], and that fetch is the last thing it did. *)
Theorem success_means_completed fuel rid timeout st r st' :
  wait_for_completion fuel rid timeout st = Some (Ok (Some r), st') ->
  status r = "completed" /\
  exists pre,
    since st st' = (pre ++ [EvRunsRetrieve (thread_id st) rid (Ok r)])%list.
Proof.
  intros Hw. destruct (wait_for_completion_inv _ _ _ _ _ _ Hw) as (_ & _ & _ & H).
  exact H.
Qed.

(** X2.  The poller never fails silently: whenever it returns failure, the
    last thing it did was to print one of its three reports (timeout, ended
    status, tool error). *)
Theorem failure_is_reported fuel rid timeout st st' :
  wait_for_completion fuel rid timeout st = Some (Ok None, st') ->
  exists pre msg,
    since st st' = (pre ++ [EvSystemMessage msg])%list /\
    poller_report msg.
Proof.
  intros Hw. destruct (wait_for_completion_inv _ _ _ _ _ _ Hw) as (_ & _ & _ & H).
  exact H.
Qed.

(** X3.  The only exception that leaves the poller is one raised by
    fetching the run, and nothing is done after that fetch: exceptions of
    the tools and of the submission never leave it. *)
Theorem only_fetch_errors_escape fuel rid timeout st e st' :
  wait_for_completion fuel rid timeout st = Some (Raise e, st') ->
  exists pre,
    since st st' =
      (pre ++ [EvRunsRetrieve (thread_id st) rid (Raise e)])%list.
Proof.
  intros Hw. destruct (wait_for_completion_inv _ _ _ _ _ _ Hw) as (_ & _ & _ & H).
  exact H.
Qed.

(** X4.  Whatever the poller returns, it has left the thread in use, the
    assistant and the persisted identifier alone, has only added events to
    the trace, and these are fetches and submissions for this thread and
    this run, tool executions, one-unit sleeps and console reports: it
    never cancels, posts, lists or creates anything. *)
Theorem poller_stays_on_its_run fuel rid timeout st res st' :
  wait_for_completion fuel rid timeout st = Some (res, st') ->
  thread_id st' = thread_id st /\
  assistant_id st' = assistant_id st /\
  stored_thread_id st' = stored_thread_id st /\
  trace st' = (trace st ++ since st st')%list /\
  forallb (poller_event (thread_id st) rid) (since st st') = true.
Proof.
  intros Hw. destruct (wait_for_completion_inv _ _ _ _ _ _ Hw) as (w & Hst & Hev & _).
  rewrite Hst at 1 2 3 4. auto.
Qed.

(** X5.  A poll whose deadline is not positive fetches nothing: it reports
    the timeout at once and returns failure. *)
Theorem no_poll_without_time fuel rid timeout st :
  timeout <= 0 ->
  wait_for_completion (S fuel) rid timeout st =
    Some (Ok None, after (world st) [EvSystemMessage "Run timed out"] st).
Proof.
  intros Ht. unfold wait_for_completion. cbn [wait_loop].
  destruct (Z.ltb_spec (now (world st) - now (world st)) timeout); [lia|].
  reflexivity.
Qed.

(** X6.  At any iteration, an exception raised by the submission of the
    tool outputs is handled like one of the tools: it is reported and the
    poller returns failure, after that single submission and without
    sleeping. *)
Theorem submit_error_ends_poll n fuel rid timeout st0 st r w1 outs w2 e w3 :
  cycles rid timeout (now (world st0)) n st0 st ->
  now (world st) - now (world st0) < timeout ->
  runs_retrieve (thread_id st) rid (world st) = (Ok r, w1) ->
  status r = "requires_action" ->
  handle_tool_calls r w1 = (Ok outs, w2) ->
  outs <> [] ->
  runs_submit_tool_outputs (thread_id st) rid outs w2 = (Raise e, w3) ->
  (n < fuel)%nat ->
  wait_for_completion fuel rid timeout st0 =
    Some (Ok None,
          after w3 [EvRunsRetrieve (thread_id st) rid (Ok r);
                    EvHandleToolCalls r (Ok outs);
                    EvSubmitToolOutputs (thread_id st) rid outs (Raise e);
                    EvSystemMessage ("Error handling tool calls: " ++ e)%string]
                st).
Proof.
  intros Hc Hg Hr Hs Ht Hne Hsub Hf. eapply wait_for_completion_at; eauto.
  rewrite (poll_once_submit _ _ _ _ _ _ _ _ Hr Hs Ht Hne Hsub). reflexivity.
Qed.

Lemma falls_through_clock rid st w evs :
  clock_advances -> falls_through rid st w evs -> now (world st) <= now w.
Proof.
  intros (_ & Hf & Ht & Hs)
         [r w1 Hr _ _|r w1 w2 Hr _ Hh|r w1 outs w2 r' w3 Hr _ Hh _ Hsub].
  - specialize (Hf (thread_id st) rid (world st)). rewrite Hr in Hf. exact Hf.
  - specialize (Hf (thread_id st) rid (world st)). rewrite Hr in Hf.
    specialize (Ht r w1). rewrite Hh in Ht. cbn [snd] in *. lia.
  - specialize (Hf (thread_id st) rid (world st)). rewrite Hr in Hf.
    specialize (Ht r w1). rewrite Hh in Ht.
    specialize (Hs (thread_id st) rid outs w2). rewrite Hsub in Hs.
    cbn [snd] in *. lia.
Qed.

Lemma wait_loop_fetches (Hclk : clock_advances) rid timeout start :
  forall fuel st res st',
    wait_loop fuel rid timeout start st = Some (res, st') ->
    exists w evs,
      st' = after w evs st /\
      Z.of_nat (count is_fetch evs)
        <= Z.max 0 (timeout - (now (world st) - start)) /\
      (count is_sleep evs < S (count is_fetch evs))%nat.
Proof.
  induction fuel as [|fuel IH]; intros st res st' Hw; [discriminate|].
  cbn [wait_loop] in Hw.
  destruct (Z.ltb_spec (now (world st) - start) timeout) as [Hg|Hg].
  - destruct (poll_once_iteration rid st) as (x & w & evs & Hit & Hp).
    rewrite Hp in Hw.
    pose proof (iteration_events _ _ _ _ _ Hit) as [_ Hone].
    assert (Hnosleep : count is_sleep evs = O).
    { destruct (poll_once_inv rid st) as (w0 & evs0 & Hst0 & Hsl & _).
      rewrite Hp in Hst0. cbn [snd] in Hst0.
      apply (f_equal trace) in Hst0. cbn [after trace] in Hst0.
      apply app_inv_head in Hst0. subst evs0. exact Hsl. }
    destruct x as [[x|]|e].
    + injection Hw as <- <-. exists w, evs. split; [reflexivity|]. lia.
    + inversion Hit as [| | | | |w' evs' Hft]; subst.
      pose proof (falls_through_clock _ _ _ _ Hclk Hft) as Hmono.
      pose proof (proj1 Hclk 1 w) as Hsleep.
      apply IH in Hw. destruct Hw as (w2 & evs2 & -> & Hb & Hs2).
      cbn [do_sleep snd log set_world after world] in Hb.
      exists w2, (evs ++ EvSleep 1 :: evs2)%list.
      split; [unfold do_sleep; cbn [snd]; flat|].
      rewrite !count_app.
      change (EvSleep 1 :: evs2) with ([EvSleep 1] ++ evs2)%list.
      rewrite !count_app. rewrite Hone, Hnosleep.
      change (count is_fetch [EvSleep 1]) with O.
      change (count is_sleep [EvSleep 1]) with 1%nat. lia.
    + injection Hw as <- <-. exists w, evs. split; [reflexivity|]. lia.
  - injection Hw as <- <-. exists (world st), [EvSystemMessage "Run timed out"].
    split; [reflexivity|]. change (count is_fetch _) with O.
    change (count is_sleep _) with O. lia.
Qed.

(** X7.  With a clock that advances, a poll fetches the run at most
    [timeout] times (never when [timeout] is not positive), and sleeps no
    more often than it fetches. *)
Theorem at_most_timeout_fetches fuel rid timeout st res st' :
  clock_advances ->
  wait_for_completion fuel rid timeout st = Some (res, st') ->
  Z.of_nat (count is_fetch (since st st')) <= Z.max 0 timeout /\
  (count is_sleep (since st st') <= count is_fetch (since st st'))%nat.
Proof.
  intros Hclk Hw. apply (wait_loop_fetches Hclk) in Hw.
  destruct Hw as (w & evs & -> & Hb & Hs). rewrite since_after.
  split; [|lia]. replace (timeout - (now (world st) - now (world st)))
    with timeout in Hb by lia. exact Hb.
Qed.

End PollerExtras.

(** ** The controller: commands, replies and the thread store *)

Section ControllerExtras.

Context {W : Type} {service : Service W} {tools : Tools W}.

Implicit Types (st : St W) (r : Run) (rid : string).

Lemma lower_ascii_idempotent c : lower_ascii (lower_ascii c) = lower_ascii c.
Proof.
  destruct c as [[] [] [] [] [] [] [] []]; reflexivity.
Qed.

Lemma lower_idempotent s : lower (lower s) = lower s.
Proof.
  induction s as [|c s IH]; cbn [lower]; [reflexivity|].
  rewrite lower_ascii_idempotent, IH. reflexivity.
Qed.

Lemma recover_spec e st1 :
  (recover e ;;; ret true) st1 =
  match threads_create (world st1) with
  | (Ok tid, w) =>
    (Ok true,
     mkSt w tid (assistant_id st1) (Some tid)
          (trace st1 ++
           [EvSystemMessage ("An error occurred: " ++ e)%string;
            EvSystemMessage "Starting a new conversation...";
            EvClearThreadId; EvThreadsCreate (Ok tid); EvSaveThreadId tid;
            EvSystemMessage "New conversation thread created.";
            EvSystemMessage "Conversation thread has been reset."]))
  | (Raise e', w) =>
    (Raise e',
     mkSt w (thread_id st1) (assistant_id st1) None
          (trace st1 ++
           [EvSystemMessage ("An error occurred: " ++ e)%string;
            EvSystemMessage "Starting a new conversation...";
            EvClearThreadId; EvThreadsCreate (Raise e')]))
  end.
Proof.
  unfold recover, bind, print_system_message at 1 2.
  rewrite reset_thread_spec. unfold log.
  cbn [world thread_id assistant_id stored_thread_id trace].
  destruct (threads_create (world st1)) as [[tid|e'] w];
    unfold ret; rewrite <- !app_assoc; reflexivity.
Qed.

Lemma start_run_frame user_input st :
  exists w evs, snd (start_run user_input st) = after w evs st.
Proof.
  destruct (cancel_active_runs_spec st) as (w & evs & Hc & _).
  destruct (messages_create (thread_id st) user_input w) as [res w2] eqn:Hp.
  destruct (start_run_spec _ _ _ _ _ _ Hc Hp) as (rest & Hs & _).
  rewrite Hs. do 2 eexists. reflexivity.
Qed.

Lemma show_reply_pick pre m post st :
  Forall (fun m' => role m' <> "assistant") pre ->
  role m = "assistant" ->
  show_reply (pre ++ m :: post) st =
  (v <- first_text m ;; print_assistant_response v) st.
Proof.
  intros Hpre Hm. induction Hpre as [|m' pre Hm' _ IH]; cbn [app show_reply].
  - rewrite Hm, String.eqb_refl. reflexivity.
  - destruct (String.eqb_spec (role m') "assistant"); [contradiction|].
    exact IH.
Qed.

Lemma show_reply_none msgs st :
  Forall (fun m' => role m' <> "assistant") msgs ->
  show_reply msgs st = (Ok tt, st).
Proof.
  intros Hall. induction Hall as [|m' msgs Hm' _ IH]; cbn [show_reply];
    [reflexivity|].
  destruct (String.eqb_spec (role m') "assistant"); [contradiction|].
  exact IH.
Qed.

Lemma show_reply_frame msgs :
  forall st, exists evs, snd (show_reply msgs st) = after (world st) evs st.
Proof.
  induction msgs as [|m msgs IH]; intros st; cbn [show_reply].
  - exists []. cbn [ret snd]. rewrite after_nil. reflexivity.
  - destruct (role m =? "assistant")%string; [|apply IH].
    unfold bind, first_text.
    destruct (content m) as [|[v|cls] more]; cbn [raise ret snd].
    + exists []. rewrite after_nil. reflexivity.
    + exists [EvAssistantResponse v]. reflexivity.
    + exists []. rewrite after_nil. reflexivity.
Qed.

Lemma display_reply_frame st :
  exists w evs, snd (display_reply st) = after w evs st.
Proof.
  unfold display_reply, bind.
  destruct (messages_list (thread_id st) (world st)) as [[msgs|e] w1] eqn:Hl;
    rewrite (call_eq _ _ _ _ _ Hl).
  - destruct (show_reply_frame msgs
                (after w1 [EvMessagesList (thread_id st) (Ok msgs)] st))
      as (evs & Hs).
    destruct (show_reply msgs _) as [[[]|e] st2]; cbn [snd] in Hs |- *;
      subst st2; rewrite after_after; do 2 eexists; reflexivity.
  - do 2 eexists. reflexivity.
Qed.

Lemma turn_frame fuel user_input st res st' :
  turn fuel user_input st = Some (res, st') ->
  exists w evs, st' = after w evs st.
Proof.
  unfold turn. intros Ht.
  destruct (start_run_frame user_input st) as (w1 & evs1 & Hs).
  destruct (start_run user_input st) as [[run|e] st1]; cbn [snd] in Hs;
    subst st1.
  2:{ injection Ht as _ <-. eauto. }
  destruct (wait_for_completion fuel (run_id run) default_timeout _)
    as [[[[r|]|e] st2]|] eqn:Hw; [| | |discriminate];
    destruct (wait_for_completion_inv _ _ _ _ _ _ Hw) as (w2 & Hst2 & _).
  - destruct (display_reply_frame st2) as (w3 & evs3 & Hd).
    injection Ht as Ht. apply (f_equal snd) in Ht. cbn [snd] in Ht.
    subst st'. rewrite Hd, Hst2, !after_after. eauto.
  - injection Ht as _ <-. rewrite Hst2, after_after. eauto.
  - injection Ht as _ <-. rewrite Hst2, after_after. eauto.
Qed.

(** X8.  [exit] and [quit], in any letter case, end the session: the
    controller says goodbye and returns [False]; it calls nothing else and
    leaves the thread and the thread store as they are. *)
Theorem quit_says_goodbye fuel user_input st :
  str_in (lower user_input) ["exit"; "quit"] = true ->
  process_user_input fuel user_input st =
    Some (Ok false, after (world st) [EvSystemMessage "Goodbye!"] st).
Proof.
  intros Hq. unfold process_user_input, turn_body. rewrite Hq. reflexivity.
Qed.

Lemma returns_false_inv fuel user_input st st' :
  process_user_input fuel user_input st = Some (Ok false, st') ->
  str_in (lower user_input) ["exit"; "quit"] = true /\
  st' = after (world st) [EvSystemMessage "Goodbye!"] st.
Proof.
  unfold process_user_input, turn_body. intros Hp.
  destruct (str_in (lower user_input) ["exit"; "quit"]).
  { injection Hp as <-. auto. }
  exfalso. destruct (lower user_input =? "reset")%string.
  - destruct ((reset_thread ;;; ret (Some true)) st) as [[[b|]|e] st1] eqn:Hr.
    + injection Hp as -> _. unfold bind, ret in Hr.
      destruct (reset_thread st) as [[[]|e] st2]; discriminate.
    + discriminate.
    + rewrite recover_spec in Hp.
      destruct (threads_create (world st1)) as [[tid|e'] w]; discriminate.
  - destruct (turn fuel user_input st) as [[[[]|e] st1]|]; try discriminate.
    rewrite recover_spec in Hp.
    destruct (threads_create (world st1)) as [[tid|e'] w]; discriminate.
Qed.

(** X9.  [process_user_input] returns [False] for [exit] and [quit] only:
    no reset, no turn and no recovery ends the session that way. *)
Theorem only_quit_returns_false fuel user_input st st' :
  process_user_input fuel user_input st = Some (Ok false, st') ->
  str_in (lower user_input) ["exit"; "quit"] = true.
Proof. intros Hp. apply (returns_false_inv _ _ _ _ Hp). Qed.

(** X10.  A command is recognised by its lowercase form alone: two inputs
    that agree up to letter case, one of which is a command, are handled
    identically. *)
Theorem commands_ignore_case fuel a b st :
  is_command a = true ->
  lower b = lower a ->
  process_user_input fuel b st = process_user_input fuel a st.
Proof.
  unfold is_command, process_user_input, turn_body. intros Hc ->.
  cbn [str_in] in Hc |- *.
  destruct (lower a =? "exit")%string; [reflexivity|].
  destruct (lower a =? "quit")%string; [reflexivity|].
  destruct (lower a =? "reset")%string; [reflexivity|discriminate].
Qed.

(** X11.  A turn whose run completes shows the text of the first assistant
    message of the listing, exactly once, and returns [True]; messages
    after it, and messages of other roles before it, are not shown. *)
Theorem completed_turn_shows_first_reply
  fuel user_input st run st1 r st2 pre m post v more w3 :
  is_command user_input = false ->
  start_run user_input st = (Ok run, st1) ->
  wait_for_completion fuel (run_id run) default_timeout st1
    = Some (Ok (Some r), st2) ->
  messages_list (thread_id st2) (world st2)
    = (Ok (pre ++ m :: post)%list, w3) ->
  Forall (fun m' => role m' <> "assistant") pre ->
  role m = "assistant" ->
  content m = TextBlock v :: more ->
  process_user_input fuel user_input st =
    Some (Ok true,
          after w3 [EvMessagesList (thread_id st2) (Ok (pre ++ m :: post)%list);
                    EvAssistantResponse v] st2).
Proof.
  intros Hcmd Hs Hw Hl Hpre Hm Hc.
  destruct (not_command _ Hcmd) as [Hexit Hreset].
  unfold process_user_input, turn_body, turn.
  rewrite Hexit, Hreset, Hs, Hw. unfold display_reply, bind.
  rewrite (call_eq _ _ _ _ _ Hl), (show_reply_pick _ _ _ _ Hpre Hm).
  unfold bind, first_text. rewrite Hc. cbn [ret].
  unfold print_assistant_response, log, after.
  cbn [world thread_id assistant_id stored_thread_id trace].
  rewrite <- app_assoc. reflexivity.
Qed.

(** X12.  A turn whose run completes but whose first assistant message
    does not start with a text block shows nothing: reading the text
    raises right after the listing ([list index out of range] when the
    message has no content, the missing attribute of the block's class
    otherwise), and the controller takes the recovery path, which reports
    that error and resets the thread. *)
Theorem reply_without_text_resets_thread
  fuel user_input st run st1 r st2 pre m post w3 :
  is_command user_input = false ->
  start_run user_input st = (Ok run, st1) ->
  wait_for_completion fuel (run_id run) default_timeout st1
    = Some (Ok (Some r), st2) ->
  messages_list (thread_id st2) (world st2)
    = (Ok (pre ++ m :: post)%list, w3) ->
  Forall (fun m' => role m' <> "assistant") pre ->
  role m = "assistant" ->
  (forall v more, content m <> TextBlock v :: more) ->
  exists e,
    match content m with
    | [] => e = "list index out of range"
    | OtherBlock cls :: _ =>
      e = ("'" ++ cls ++ "' object has no attribute 'text'")%string
    | TextBlock _ :: _ => False
    end /\
    process_user_input fuel user_input st =
      Some ((recover e ;;; ret true)
              (after w3 [EvMessagesList (thread_id st2)
                           (Ok (pre ++ m :: post)%list)] st2)).
Proof.
  intros Hcmd Hs Hw Hl Hpre Hm Hc.
  destruct (not_command _ Hcmd) as [Hexit Hreset].
  unfold process_user_input, turn_body, turn.
  rewrite Hexit, Hreset, Hs, Hw. unfold display_reply, bind at 1.
  rewrite (call_eq _ _ _ _ _ Hl), (show_reply_pick _ _ _ _ Hpre Hm).
  unfold bind at 1, first_text.
  destruct (content m) as [|[v|cls] more] eqn:Hcm.
  - eexists. split; reflexivity.
  - exfalso. eapply Hc. reflexivity.
  - eexists. split; reflexivity.
Qed.

End ControllerExtras.

Section ThreadStore.

Context {W : Type} {service : Service W} {tools : Tools W}.

Implicit Types (st : St W) (r : Run) (rid : string).

Lemma recover_store e st1 res st' :
  (recover e ;;; ret true) st1 = (res, st') ->
  match res with
  | Ok _ => consistent st'
  | Raise _ => stored_thread_id st' = None
  end.
Proof.
  rewrite recover_spec.
  destruct (threads_create (world st1)) as [[tid|e'] w]; intros [= <- <-];
    reflexivity.
Qed.

Lemma process_user_input_store fuel user_input st res st' :
  process_user_input fuel user_input st = Some (res, st') ->
  match res with
  | Ok _ => consistent st -> consistent st'
  | Raise _ => stored_thread_id st' = None
  end.
Proof.
  unfold process_user_input, turn_body. intros Hp.
  destruct (str_in (lower user_input) ["exit"; "quit"]).
  { injection Hp as <- <-. auto. }
  destruct (lower user_input =? "reset")%string.
  - unfold bind at 1 in Hp. rewrite reset_thread_spec in Hp.
    destruct (threads_create (world st)) as [[tid|e] w].
    + injection Hp as <- <-. reflexivity.
    + injection Hp as Hp. apply recover_store in Hp.
      destruct res; auto.
  - destruct (turn fuel user_input st) as [[[[]|e] st1]|] eqn:Ht;
      [| |discriminate].
    + injection Hp as <- <-. apply turn_frame in Ht.
      destruct Ht as (w & evs & ->). auto.
    + injection Hp as Hp. apply recover_store in Hp. destruct res; auto.
Qed.

(** X13.  The controller keeps the thread in use and the persisted
    identifier in step: if they agree before [process_user_input] and it
    returns normally, they agree after it, whatever the input and the
    service did.  If it raises, the persisted identifier has been
    cleared. *)
Theorem thread_store_in_step fuel user_input st res st' :
  process_user_input fuel user_input st = Some (res, st') ->
  match res with
  | Ok _ => consistent st -> consistent st'
  | Raise _ => stored_thread_id st' = None
  end.
Proof. apply process_user_input_store. Qed.

(** X14.  At any iteration, an exception raised by fetching the run is
    not handled by the poller: it leaves [wait_for_completion] with no
    report, and the turn it belongs to takes the recovery path, which
    resets the thread (unlike a tool error, which keeps it). *)
Theorem fetch_error_abandons_thread
  n fuel user_input s run st0 st e w1 :
  is_command user_input = false ->
  start_run user_input s = (Ok run, st0) ->
  cycles (run_id run) default_timeout (now (world st0)) n st0 st ->
  now (world st) - now (world st0) < default_timeout ->
  runs_retrieve (thread_id st) (run_id run) (world st) = (Raise e, w1) ->
  (n < fuel)%nat ->
  let st' :=
    after w1 [EvRunsRetrieve (thread_id st) (run_id run) (Raise e)] st in
  wait_for_completion fuel (run_id run) default_timeout st0
    = Some (Raise e, st') /\
  process_user_input fuel user_input s =
    Some ((recover e ;;; ret true) st').
Proof.
  intros Hcmd Hs Hc Hg Hr Hf st'.
  assert (Hw : wait_for_completion fuel (run_id run) default_timeout st0
               = Some (Raise e, st')).
  { unfold wait_for_completion.
    replace fuel with (n + S (fuel - n - 1))%nat by lia.
    rewrite (wait_loop_cycles _ _ _ _ _ _ Hc). cbn [wait_loop].
    rewrite (proj2 (Z.ltb_lt _ _) Hg), (poll_once_raise _ _ _ _ Hr).
    reflexivity. }
  split; [exact Hw|].
  destruct (not_command _ Hcmd) as [Hexit Hreset].
  unfold process_user_input, turn_body, turn.
  rewrite Hexit, Hreset, Hs, Hw. reflexivity.
Qed.

(** X15.  A [reset] whose thread creation raises is tried once more by the
    recovery path: the persisted identifier is cleared twice and the
    service is asked for a thread twice.  If the second creation succeeds
    the session goes on with it; if it raises too, the exception leaves
    [process_user_input] with the persisted identifier cleared and the old
    thread still in use. *)
Theorem failed_reset_is_retried fuel user_input st e w1 :
  lower user_input = "reset" ->
  threads_create (world st) = (Raise e, w1) ->
  process_user_input fuel user_input st =
  Some
    match threads_create w1 with
    | (Ok tid, w2) =>
      (Ok true,
       mkSt w2 tid (assistant_id st) (Some tid)
            (trace st ++
             [EvClearThreadId; EvThreadsCreate (Raise e);
              EvSystemMessage ("An error occurred: " ++ e)%string;
              EvSystemMessage "Starting a new conversation...";
              EvClearThreadId; EvThreadsCreate (Ok tid); EvSaveThreadId tid;
              EvSystemMessage "New conversation thread created.";
              EvSystemMessage "Conversation thread has been reset."]))
    | (Raise e', w2) =>
      (Raise e',
       mkSt w2 (thread_id st) (assistant_id st) None
            (trace st ++
             [EvClearThreadId; EvThreadsCreate (Raise e);
              EvSystemMessage ("An error occurred: " ++ e)%string;
              EvSystemMessage "Starting a new conversation...";
              EvClearThreadId; EvThreadsCreate (Raise e')]))
    end.
Proof.
  intros Hcmd Hnew. unfold process_user_input, turn_body.
  rewrite Hcmd. change (str_in "reset" ["exit"; "quit"]) with false.
  rewrite String.eqb_refl. unfold bind at 1.
  rewrite reset_thread_spec, Hnew, recover_spec.
  cbn [world thread_id assistant_id stored_thread_id trace].
  destruct (threads_create w1) as [[tid|e'] w2];
    rewrite <- app_assoc; reflexivity.
Qed.

End ThreadStore.

(** ** The exceptions that reach the recovery *)

Section Recovery.

Context {W : Type} {service : Service W} {tools : Tools W}.

Implicit Types (st : St W) (r : Run) (rid : string).







End Recovery.

(** ** The session *)

Section SessionFacts.

Context {W : Type} {service : Service W} {tools : Tools W}
        {terminal : Terminal W} {assistants : Assistants W}.

Implicit Types (st : St W) (s : Session W).

Lemma since_log st ev : since st (log ev st) = [ev].
Proof. apply since_app. reflexivity. Qed.

Lemma lift_print msg s :
  lift (print_system_message msg) s =
  (Ok tt,
   mkSession (log (EvSystemMessage msg) (manager s))
             (console s ++ [Core (EvSystemMessage msg)])).
Proof.
  unfold lift, print_system_message. rewrite since_log. reflexivity.
Qed.

Lemma update_assistant_configuration_spec aid s :
  update_assistant_configuration aid s =
  (Ok tt,
   match assistants_update aid (world (manager s)) with
   | (Ok a, w') =>
     mkSession
       (mkSt w' (thread_id (manager s)) a (stored_thread_id (manager s))
             (trace (manager s) ++
              [EvSystemMessage "Updating assistant configuration...";
               EvSystemMessage
                 "Assistant configuration updated successfully!"]))
       (console s ++
        [Core (EvSystemMessage "Updating assistant configuration...");
         EvAssistantsUpdate aid (Ok a);
         Core (EvSystemMessage
                 "Assistant configuration updated successfully!")])
   | (Raise e, w') =>
     mkSession
       (mkSt w' (thread_id (manager s)) (assistant_id (manager s))
             (stored_thread_id (manager s))
             (trace (manager s) ++
              [EvSystemMessage "Updating assistant configuration...";
               EvSystemMessage
                 ("Warning: Failed to update assistant configuration: "
                  ++ e)%string]))
       (console s ++
        [Core (EvSystemMessage "Updating assistant configuration...");
         EvAssistantsUpdate aid (Raise e);
         Core (EvSystemMessage
                 ("Warning: Failed to update assistant configuration: "
                  ++ e)%string)])
   end).
Proof.
  unfold update_assistant_configuration. rewrite lift_print.
  unfold session_call, say, set_assistant, set_world, log.
  cbn [manager console world thread_id assistant_id stored_thread_id trace].
  destruct (assistants_update aid (world (manager s))) as [[a|e] w'];
    rewrite lift_print; unfold log;
    cbn [manager console world thread_id assistant_id stored_thread_id trace];
    rewrite <- !app_assoc; reflexivity.
Qed.

(** X16.  Without an API key or without an assistant identifier (unset or
    empty), the program ends with exit code 1 after a single message that
    names the missing setting; it calls nothing on the service and never
    prompts.  The key is checked first. *)
Theorem missing_settings_abort_startup env w stored turns fuel :
  truthy (env_api_key env) && truthy (env_assistant_id env) = false ->
  main env w stored turns fuel =
    Some (1,
          mkSession (mkSt w "" "" stored [])
            [Core (EvSystemMessage
                     ("Fatal error: "
                      ++ (if truthy (env_api_key env) then "ASSISTANT_ID"
                          else "OPENAI_API_KEY")
                      ++ " not found in environment variables")%string)]).
Proof.
  unfold main, new_manager. intros Hmiss.
  destruct (truthy (env_api_key env)); cbn [negb andb] in *; [|reflexivity].
  destruct (env_assistant_id env) as [[|c aid]|]; try discriminate;
    reflexivity.
Qed.

(** X17.  When the assistant cannot be retrieved, the program ends with
    exit code 1 after that single call: the message names the assistant
    and carries the error, and neither the update nor any thread call is
    made. *)
Theorem unknown_assistant_aborts_startup env w stored turns fuel c aid' e w1 :
  truthy (env_api_key env) = true ->
  env_assistant_id env = Some (String c aid') ->
  assistants_retrieve (String c aid') w = (Raise e, w1) ->
  main env w stored turns fuel =
    Some (1,
          mkSession (mkSt w1 "" "" stored [])
            [EvAssistantsRetrieve (String c aid') (Raise e);
             Core (EvSystemMessage
                     ("Fatal error: Could not retrieve assistant with ID "
                      ++ String c aid' ++ ": " ++ e)%string)]).
Proof.
  intros Hkey Haid Hr. unfold main, new_manager. rewrite Hkey, Haid.
  cbn [negb]. unfold session_call. cbn [manager world]. rewrite Hr.
  reflexivity.
Qed.

(** X18.  A failed update of the assistant does not stop the startup: the
    failure is printed as a warning, the retrieved assistant stays in use,
    and the construction goes on to the thread. *)
Theorem failed_update_is_a_warning env w stored c aid' a w1 e w2 :
  truthy (env_api_key env) = true ->
  env_assistant_id env = Some (String c aid') ->
  assistants_retrieve (String c aid') w = (Ok a, w1) ->
  assistants_update (String c aid') w1 = (Raise e, w2) ->
  new_manager env w stored =
    attach_thread
      (mkSession
         (mkSt w2 "" a stored
               [EvSystemMessage "Updating assistant configuration...";
                EvSystemMessage
                  ("Warning: Failed to update assistant configuration: "
                   ++ e)%string])
         [EvAssistantsRetrieve (String c aid') (Ok a);
          Core (EvSystemMessage "Updating assistant configuration...");
          EvAssistantsUpdate (String c aid') (Raise e);
          Core (EvSystemMessage
                  ("Warning: Failed to update assistant configuration: "
                   ++ e)%string)]).
Proof.
  intros Hkey Haid Hr Hu. unfold new_manager. rewrite Hkey, Haid.
  cbn [negb]. unfold session_call. cbn [manager world]. rewrite Hr.
  rewrite update_assistant_configuration_spec.
  unfold say, set_assistant, set_world.
  cbn [manager console world thread_id assistant_id stored_thread_id trace].
  rewrite Hu. reflexivity.
Qed.

Lemma attach_thread_spec s :
  attach_thread s =
  match stored_thread_id (manager s) with
  | Some (String c tid) =>
    (Ok tt,
     mkSession
       (mkSt (world (manager s)) (String c tid) (assistant_id (manager s))
             (stored_thread_id (manager s)) (trace (manager s)))
       (console s))
  | _ =>
    match threads_create (world (manager s)) with
    | (Ok tid, w') =>
      (Ok tt,
       mkSession
         (mkSt w' tid (assistant_id (manager s)) (Some tid)
               (trace (manager s) ++
                [EvThreadsCreate (Ok tid); EvSaveThreadId tid;
                 EvSystemMessage "New conversation thread created."]))
         (console s ++
          [Core (EvThreadsCreate (Ok tid)); Core (EvSaveThreadId tid);
           Core (EvSystemMessage "New conversation thread created.")]))
    | (Raise e, w') =>
      (Raise e,
       mkSession
         (mkSt w' (thread_id (manager s)) (assistant_id (manager s))
               (stored_thread_id (manager s))
               (trace (manager s) ++ [EvThreadsCreate (Raise e)]))
         (console s ++ [Core (EvThreadsCreate (Raise e))]))
    end
  end.
Proof.
  assert (Hnew :
    lift create_new_thread s =
    match threads_create (world (manager s)) with
    | (Ok tid, w') =>
      (Ok tt,
       mkSession
         (mkSt w' tid (assistant_id (manager s)) (Some tid)
               (trace (manager s) ++
                [EvThreadsCreate (Ok tid); EvSaveThreadId tid;
                 EvSystemMessage "New conversation thread created."]))
         (console s ++
          [Core (EvThreadsCreate (Ok tid)); Core (EvSaveThreadId tid);
           Core (EvSystemMessage "New conversation thread created.")]))
    | (Raise e, w') =>
      (Raise e,
       mkSession
         (mkSt w' (thread_id (manager s)) (assistant_id (manager s))
               (stored_thread_id (manager s))
               (trace (manager s) ++ [EvThreadsCreate (Raise e)]))
         (console s ++ [Core (EvThreadsCreate (Raise e))]))
    end).
  { unfold lift, create_new_thread, bind, call, set_thread_id, save_thread_id,
      print_system_message, log, set_world.
    destruct (threads_create (world (manager s))) as [[tid|e] w'];
      cbn [world thread_id assistant_id stored_thread_id trace];
      rewrite <- ?app_assoc; cbn [app];
      (erewrite since_app by reflexivity); reflexivity. }
  unfold attach_thread.
  destruct (stored_thread_id (manager s)) as [[|c tid]|] eqn:Hst.
  - etransitivity; [|exact Hnew]. unfold lift, bind, read_thread_id.
    rewrite Hst. reflexivity.
  - unfold lift, bind, read_thread_id, set_thread_id. rewrite Hst.
    erewrite since_app
      by (cbn [trace]; symmetry; apply app_nil_r).
    cbn [map]. rewrite app_nil_r, ?Hst. reflexivity.
  - etransitivity; [|exact Hnew]. unfold lift, bind, read_thread_id.
    rewrite Hst. reflexivity.
Qed.

(** A construction that succeeded went through the thread step, in a
    state that still had the persisted identifier and had created no
    thread. *)
Lemma new_manager_ok env w stored s' :
  new_manager env w stored = (Ok tt, s') ->
  exists s2,
    attach_thread s2 = (Ok tt, s') /\
    stored_thread_id (manager s2) = stored /\
    existsb creates_thread (console s2) = false.
Proof.
  unfold new_manager. destruct (negb (truthy (env_api_key env))); [discriminate|].
  destruct (env_assistant_id env) as [[|c aid]|]; try discriminate.
  unfold session_call. cbn [manager world].
  destruct (assistants_retrieve (String c aid) w) as [[a|e] w1]; [|discriminate].
  rewrite update_assistant_configuration_spec.
  unfold say, set_assistant, set_world.
  cbn [manager console world thread_id assistant_id stored_thread_id trace].
  destruct (assistants_update (String c aid) w1) as [[a'|e] w2];
    intros Hat; eexists; (split; [exact Hat|]); split; reflexivity.
Qed.

(** X19.  A startup that succeeds leaves the thread in use and the
    persisted identifier in step.  A persisted identifier that is present
    and not empty is taken as it is, without asking the service for a
    thread; otherwise exactly one thread is created, and its identifier is
    used and persisted. *)
Theorem startup_attaches_thread env w stored s' :
  new_manager env w stored = (Ok tt, s') ->
  consistent (manager s') /\
  match stored with
  | Some (String c tid) =>
    thread_id (manager s') = String c tid /\
    existsb creates_thread (console s') = false
  | _ =>
    exists pre tid,
      console s' =
        (pre ++ [Core (EvThreadsCreate (Ok tid)); Core (EvSaveThreadId tid);
                 Core (EvSystemMessage "New conversation thread created.")])%list
      /\ existsb creates_thread pre = false
      /\ thread_id (manager s') = tid
  end.
Proof.
  intros Hnew. destruct (new_manager_ok _ _ _ _ Hnew) as (s2 & Hat & Hst & Hno).
  rewrite attach_thread_spec, Hst in Hat.
  destruct stored as [[|c tid]|].
  - destruct (threads_create (world (manager s2))) as [[tid|e] w'];
      [|discriminate].
    injection Hat as <-. split; [reflexivity|]. exists (console s2), tid. auto.
  - injection Hat as <-. split; [reflexivity|]. auto.
  - destruct (threads_create (world (manager s2))) as [[tid|e] w'];
      [|discriminate].
    injection Hat as <-. split; [reflexivity|]. exists (console s2), tid. auto.
Qed.

(** X20.  When the first line typed is [exit] or [quit] (in any letter
    case), [run] returns after the welcome screen, the prompt and the
    goodbye: it makes no call on the service and leaves the thread and the
    thread store untouched. *)
Theorem quit_at_first_prompt turns fuel s user_input w1 :
  get_user_input (world (manager s)) = (Ok user_input, w1) ->
  str_in (lower user_input) ["exit"; "quit"] = true ->
  run (S turns) fuel s =
    Some (Returned,
          mkSession
            (mkSt w1 (thread_id (manager s)) (assistant_id (manager s))
                  (stored_thread_id (manager s))
                  (trace (manager s) ++ [EvSystemMessage "Goodbye!"]))
            (console s ++
             [EvClearScreen; EvWelcome; EvDivider;
              EvUserInput (Ok user_input); EvDivider;
              Core (EvSystemMessage "Goodbye!")])).
Proof.
  intros Hin Hq. unfold run. cbn [session_loop].
  unfold session_call, say. cbn [manager console]. rewrite Hin.
  unfold lift_opt. cbn [manager console].
  unfold process_user_input, turn_body. rewrite Hq.
  unfold bind, print_system_message, ret.
  rewrite since_log. unfold log, set_world.
  cbn [world thread_id assistant_id stored_thread_id trace map].
  rewrite <- !app_assoc. reflexivity.
Qed.

(** An exception leaves [process_user_input] only from the thread
    creation of the recovery. *)
Lemma process_user_input_raise fuel user_input st e st' :
  process_user_input fuel user_input st = Some (Raise e, st') ->
  exists pre, since st st' = (pre ++ [EvThreadsCreate (Raise e)])%list.
Proof.
  unfold process_user_input, turn_body. intros Hp.
  destruct (str_in (lower user_input) ["exit"; "quit"]); [discriminate|].
  destruct (lower user_input =? "reset")%string.
  - unfold bind at 1 in Hp. rewrite reset_thread_spec in Hp.
    destruct (threads_create (world st)) as [[tid|e0] w]; [discriminate|].
    injection Hp as Hp. rewrite recover_spec in Hp.
    cbn [world thread_id assistant_id stored_thread_id trace] in Hp.
    destruct (threads_create w) as [[tid|e1] w1]; [discriminate|].
    injection Hp as <- <-.
    exists [EvClearThreadId; EvThreadsCreate (Raise e0);
            EvSystemMessage ("An error occurred: " ++ e0)%string;
            EvSystemMessage "Starting a new conversation...";
            EvClearThreadId].
    apply since_app. cbn [trace]. rewrite <- app_assoc. reflexivity.
  - destruct (turn fuel user_input st) as [[[[]|e0] st1]|] eqn:Ht;
      [discriminate| |discriminate].
    apply turn_frame in Ht. destruct Ht as (w & evs & ->).
    injection Hp as Hp. rewrite recover_spec in Hp.
    cbn [after world thread_id assistant_id stored_thread_id trace] in Hp.
    destruct (threads_create w) as [[tid|e1] w1]; [discriminate|].
    injection Hp as <- <-.
    exists (evs ++ [EvSystemMessage ("An error occurred: " ++ e0)%string;
                    EvSystemMessage "Starting a new conversation...";
                    EvClearThreadId])%list.
    apply since_app. cbn [trace]. rewrite <- !app_assoc. reflexivity.
Qed.

Lemma session_loop_inv fuel :
  forall turns s res s',
    session_loop turns fuel s = Some (res, s') ->
    match res with
    | Ok _ =>
      (consistent (manager s) -> consistent (manager s')) /\
      exists pre line,
        str_in (lower line) ["exit"; "quit"] = true /\
        console s' =
          (pre ++ [EvUserInput (Ok line); EvDivider;
                   Core (EvSystemMessage "Goodbye!")])%list
    | Raise e =>
      exists pre ev,
        fatal_source ev e /\ console s' = (pre ++ [ev])%list
    end.
Proof.
  induction turns as [|turns IH]; intros s res s' Hl; [discriminate|].
  cbn [session_loop] in Hl. unfold session_call in Hl.
  destruct (get_user_input (world (manager s))) as [[user_input|e] w1].
  2:{ injection Hl as <- <-. exists (console s), (EvUserInput (Raise e)).
      split; reflexivity. }
  unfold lift_opt, say in Hl. cbn [manager console] in Hl.
  destruct (process_user_input fuel user_input (set_world w1 (manager s)))
    as [[[[]|e] st1]|] eqn:Hp; [| | |discriminate].
  - apply IH in Hl. destruct res; [|exact Hl].
    destruct Hl as [Hcons Hlast]. split; [|exact Hlast].
    intros Hc. apply Hcons. cbn [say manager].
    apply (process_user_input_store _ _ _ _ _ Hp). exact Hc.
  - injection Hl as <- <-. cbn [manager console]. split.
    + intros Hc. apply (process_user_input_store _ _ _ _ _ Hp). exact Hc.
    + apply returns_false_inv in Hp. destruct Hp as [Hq ->].
      rewrite since_after. cbn [map]. exists (console s), user_input.
      split; [exact Hq|]. rewrite <- !app_assoc. reflexivity.
  - injection Hl as <- <-. cbn [manager console].
    apply process_user_input_raise in Hp. destruct Hp as (pre & ->).
    rewrite map_app. cbn [map].
    eexists. exists (Core (EvThreadsCreate (Raise e))).
    split; [reflexivity|]. rewrite app_assoc. reflexivity.
Qed.

(** X21.  [run] ends in one of two ways.  It returns after the goodbye
    that answers a line [exit] or [quit], and then the thread in use is
    still the persisted one if it was when [run] began, so that the next
    start resumes it.  Or it ends the process with exit code 1 after a
    message [Fatal error: ] that carries the exception, which the prompt or
    a thread creation raised as the last thing the loop did. *)
Theorem run_returns_or_exits turns fuel s how s' :
  run turns fuel s = Some (how, s') ->
  match how with
  | Returned =>
    (consistent (manager s) -> consistent (manager s')) /\
    exists pre line,
      str_in (lower line) ["exit"; "quit"] = true /\
      console s' =
        (pre ++ [EvUserInput (Ok line); EvDivider;
                 Core (EvSystemMessage "Goodbye!")])%list
  | SysExit code =>
    code = 1 /\
    exists pre ev e,
      fatal_source ev e /\
      console s' =
        (pre ++ [ev; Core (EvSystemMessage ("Fatal error: " ++ e)%string)])%list
  end.
Proof.
  unfold run.
  destruct (session_loop turns fuel _) as [[[[]|e] s1]|] eqn:Hl;
    [| |discriminate]; intros [= <- <-]; apply session_loop_inv in Hl.
  - exact Hl.
  - split; [reflexivity|]. destruct Hl as (pre & ev & Hsrc & Hc).
    exists pre, ev, e. split; [exact Hsrc|].
    unfold say. cbn [console]. rewrite Hc, <- app_assoc. reflexivity.
Qed.

End SessionFacts.

(** ** More runs in the scripted world *)

Lemma success_means_completed_witness :
  status Sim.done = "completed" /\
  exists pre,
    since Sim.two_cycles
      (final_state (wait_for_completion 5 "run_1" 300 Sim.two_cycles)
                   Sim.two_cycles) =
      (pre ++ [EvRunsRetrieve "thread_1" "run_1" (Ok Sim.done)])%list.
Proof.
  apply (success_means_completed 5 "run_1" 300 Sim.two_cycles).
  vm_compute. reflexivity.
Defined.

Lemma failure_is_reported_witness :
  exists pre msg,
    since Sim.fails_second
      (final_state (wait_for_completion 5 "run_1" 300 Sim.fails_second)
                   Sim.fails_second) =
      (pre ++ [EvSystemMessage msg])%list /\
    poller_report msg.
Proof.
  apply (failure_is_reported 5 "run_1" 300 Sim.fails_second).
  vm_compute. reflexivity.
Defined.

Lemma only_fetch_errors_escape_witness :
  exists pre,
    since Cases.fetch_raises
      (final_state (wait_for_completion 5 "run_1" 300 Cases.fetch_raises)
                   Cases.fetch_raises) =
      (pre ++ [EvRunsRetrieve "thread_1" "run_1"
                 (Raise "Connection error.")])%list.
Proof.
  apply (only_fetch_errors_escape 5 "run_1" 300 Cases.fetch_raises).
  vm_compute. reflexivity.
Defined.

Lemma poller_stays_on_its_run_witness :
  let st' :=
    final_state (wait_for_completion 5 "run_1" 300 Sim.two_cycles)
                Sim.two_cycles in
  thread_id st' = thread_id Sim.two_cycles /\
  assistant_id st' = assistant_id Sim.two_cycles /\
  stored_thread_id st' = stored_thread_id Sim.two_cycles /\
  trace st' = (trace Sim.two_cycles ++ since Sim.two_cycles st')%list /\
  forallb (poller_event (thread_id Sim.two_cycles) "run_1")
          (since Sim.two_cycles st') = true.
Proof.
  apply (poller_stays_on_its_run 5 "run_1" 300 Sim.two_cycles
           (Ok (Some Sim.done))).
  vm_compute. reflexivity.
Defined.

Lemma no_poll_without_time_witness :
  wait_for_completion 1 "run_1" 0 Sim.two_cycles =
    Some (Ok None,
          after (world Sim.two_cycles) [EvSystemMessage "Run timed out"]
                Sim.two_cycles).
Proof.
  apply (no_poll_without_time 0 "run_1" 0 Sim.two_cycles). lia.
Defined.

Lemma submit_error_ends_poll_witness :
  exists st',
    wait_for_completion 5 "run_1" 300 Cases.submit_raises
      = Some (Ok None, st') /\
    since Cases.submit_raises st' =
      [EvRunsRetrieve "thread_1" "run_1"
         (Ok (Sim.asks [mkToolCall "call_1" "add" "{}"]));
       EvHandleToolCalls (Sim.asks [mkToolCall "call_1" "add" "{}"])
         (Ok [mkToolOutput "call_1" "4"]);
       EvSubmitToolOutputs "thread_1" "run_1" [mkToolOutput "call_1" "4"]
         (Raise "Bad request");
       EvSystemMessage "Error handling tool calls: Bad request"].
Proof.
  eexists. split.
  - eapply (submit_error_ends_poll 0 5 "run_1" 300 Cases.submit_raises
              Cases.submit_raises).
    + apply cycles_O.
    + vm_compute. reflexivity.
    + reflexivity.
    + reflexivity.
    + reflexivity.
    + discriminate.
    + reflexivity.
    + lia.
  - reflexivity.
Defined.

Lemma at_most_timeout_fetches_witness :
  let st' :=
    final_state (wait_for_completion 4 "run_1" 3 Sim.stuck) Sim.stuck in
  Z.of_nat (count is_fetch (since Sim.stuck st')) <= Z.max 0 3 /\
  (count is_sleep (since Sim.stuck st')
   <= count is_fetch (since Sim.stuck st'))%nat.
Proof.
  apply (at_most_timeout_fetches 4 "run_1" 3 Sim.stuck (Ok None)).
  - exact sim_clock_advances.
  - vm_compute. reflexivity.
Defined.

Lemma quit_says_goodbye_witness :
  process_user_input 5 "Quit" Sim.stuck =
    Some (Ok false,
          after (world Sim.stuck) [EvSystemMessage "Goodbye!"] Sim.stuck).
Proof.
  apply (quit_says_goodbye 5 "Quit" Sim.stuck). reflexivity.
Defined.

Lemma only_quit_returns_false_witness :
  str_in (lower "EXIT") ["exit"; "quit"] = true.
Proof.
  apply (only_quit_returns_false 5 "EXIT" Sim.stuck
           (after (world Sim.stuck) [EvSystemMessage "Goodbye!"] Sim.stuck)).
  vm_compute. reflexivity.
Defined.

Lemma commands_ignore_case_witness :
  process_user_input 5 "ReSeT" Sim.stuck
  = process_user_input 5 "reset" Sim.stuck.
Proof.
  apply (commands_ignore_case 5 "reset" "ReSeT" Sim.stuck); reflexivity.
Defined.

Lemma completed_turn_shows_first_reply_witness :
  let st2 :=
    final_state
      (wait_for_completion 5 "run_1" default_timeout
         (snd (start_run "What is 2+2?" Cases.two_replies)))
      Cases.two_replies in
  process_user_input 5 "What is 2+2?" Cases.two_replies =
    Some (Ok true,
          after (world st2)
            [EvMessagesList "thread_1"
               (Ok [mkMessage "user" [TextBlock "What is 2+2?"];
                    mkMessage "assistant"
                      [TextBlock "4"; OtherBlock "ImageFileContentBlock"];
                    mkMessage "assistant" [TextBlock "Hello"]]);
             EvAssistantResponse "4"] st2).
Proof.
  intros st2.
  apply (completed_turn_shows_first_reply 5 "What is 2+2?"
           Cases.two_replies (Sim.pending "run_1")
           (snd (start_run "What is 2+2?" Cases.two_replies)) Sim.done st2
           [mkMessage "user" [TextBlock "What is 2+2?"]]
           (mkMessage "assistant"
              [TextBlock "4"; OtherBlock "ImageFileContentBlock"])
           [mkMessage "assistant" [TextBlock "Hello"]] "4"
           [OtherBlock "ImageFileContentBlock"]).
  - reflexivity.
  - vm_compute. reflexivity.
  - vm_compute. reflexivity.
  - vm_compute. reflexivity.
  - repeat constructor. discriminate.
  - reflexivity.
  - reflexivity.
Defined.

Lemma reply_without_text_resets_thread_witness :
  let st2 :=
    final_state
      (wait_for_completion 5 "run_1" default_timeout
         (snd (start_run "Draw a cat" Cases.image_reply)))
      Cases.image_reply in
  exists e,
    e = "'ImageFileContentBlock' object has no attribute 'text'" /\
    process_user_input 5 "Draw a cat" Cases.image_reply =
      Some ((recover e ;;; ret true)
              (after (world st2)
                 [EvMessagesList "thread_1"
                    (Ok [mkMessage "assistant"
                           [OtherBlock "ImageFileContentBlock"]])] st2)).
Proof.
  intros st2.
  apply (reply_without_text_resets_thread 5 "Draw a cat"
           Cases.image_reply (Sim.pending "run_1")
           (snd (start_run "Draw a cat" Cases.image_reply)) Sim.done st2
           [] (mkMessage "assistant" [OtherBlock "ImageFileContentBlock"])
           []).
  - reflexivity.
  - vm_compute. reflexivity.
  - vm_compute. reflexivity.
  - vm_compute. reflexivity.
  - constructor.
  - reflexivity.
  - intros v more. discriminate.
Defined.

Lemma thread_store_in_step_witness :
  consistent
    (final_state (process_user_input 5 "hello" Sim.post_raises)
                 Sim.post_raises).
Proof.
  apply (thread_store_in_step 5 "hello" Sim.post_raises (Ok true)).
  - vm_compute. reflexivity.
  - reflexivity.
Defined.

Lemma fetch_error_abandons_thread_witness :
  let st0 := snd (start_run "hello" Cases.fetch_raises) in
  let st :=
    after (Sim.tick 1 (Sim.with_fetches [Raise "Connection error."] Sim.quiet))
          [EvRunsRetrieve "thread_1" "run_1" (Ok (Sim.pending "run_1"));
           EvSleep 1] st0 in
  let st' :=
    after (Sim.tick 1 (Sim.with_fetches [] Sim.quiet))
          [EvRunsRetrieve "thread_1" "run_1" (Raise "Connection error.")]
          st in
  wait_for_completion 5 "run_1" default_timeout st0
    = Some (Raise "Connection error.", st') /\
  process_user_input 5 "hello" Cases.fetch_raises =
    Some ((recover "Connection error." ;;; ret true) st').
Proof.
  intros st0 st st'.
  apply (fetch_error_abandons_thread 1 5 "hello" Cases.fetch_raises
           (Sim.pending "run_1") st0 st "Connection error."
           (Sim.tick 1 (Sim.with_fetches [] Sim.quiet))).
  - reflexivity.
  - vm_compute. reflexivity.
  - eapply cycles_S; [vm_compute; reflexivity|vm_compute; reflexivity|].
    apply cycles_O.
  - vm_compute. reflexivity.
  - vm_compute. reflexivity.
  - lia.
Defined.

Lemma failed_reset_is_retried_witness :
  exists st',
    process_user_input 5 "reset" Cases.flaky_threads = Some (Ok true, st') /\
    thread_id st' = "thread_2" /\
    count (fun ev => match ev with EvThreadsCreate _ => true | _ => false end)
          (trace st') = 2%nat.
Proof.
  eexists. split.
  - etransitivity.
    + eapply (failed_reset_is_retried 5 "reset" Cases.flaky_threads);
        reflexivity.
    + reflexivity.
  - split; reflexivity.
Defined.

Lemma missing_settings_abort_startup_witness :
  main (mkEnv (Some "") (Some "asst_1")) Desk.chat (Some "thread_1") 3 5 =
    Some (1,
          mkSession (mkSt Desk.chat "" "" (Some "thread_1") [])
            [Core (EvSystemMessage
                     "Fatal error: OPENAI_API_KEY not found in environment variables")]).
Proof.
  apply (missing_settings_abort_startup (mkEnv (Some "") (Some "asst_1"))
           Desk.chat (Some "thread_1") 3 5).
  reflexivity.
Defined.

Lemma unknown_assistant_aborts_startup_witness :
  main Desk.settings Desk.unknown None 3 5 =
    Some (1,
          mkSession (mkSt Desk.unknown "" "" None [])
            [EvAssistantsRetrieve "asst_1" (Raise "No assistant found");
             Core (EvSystemMessage
                     "Fatal error: Could not retrieve assistant with ID asst_1: No assistant found")]).
Proof.
  apply (unknown_assistant_aborts_startup Desk.settings Desk.unknown None 3 5
           "a" "sst_1" "No assistant found" Desk.unknown); reflexivity.
Defined.

Lemma failed_update_is_a_warning_witness :
  fst (new_manager Desk.settings Desk.stale (Some "thread_1")) = Ok tt /\
  assistant_id (manager (snd (new_manager Desk.settings Desk.stale
                                (Some "thread_1")))) = "asst_1" /\
  new_manager Desk.settings Desk.stale (Some "thread_1") =
    attach_thread
      (mkSession
         (mkSt Desk.stale "" "asst_1" (Some "thread_1")
               [EvSystemMessage "Updating assistant configuration...";
                EvSystemMessage
                  "Warning: Failed to update assistant configuration: Connection error."])
         [EvAssistantsRetrieve "asst_1" (Ok "asst_1");
          Core (EvSystemMessage "Updating assistant configuration...");
          EvAssistantsUpdate "asst_1" (Raise "Connection error.");
          Core (EvSystemMessage
                  "Warning: Failed to update assistant configuration: Connection error.")]).
Proof.
  split; [reflexivity|]. split; [reflexivity|].
  apply (failed_update_is_a_warning Desk.settings Desk.stale
           (Some "thread_1") "a" "sst_1" "asst_1" Desk.stale
           "Connection error." Desk.stale); reflexivity.
Defined.

Lemma startup_attaches_thread_witness :
  let s' := snd (new_manager Desk.settings Desk.chat (Some "thread_1")) in
  consistent (manager s') /\
  thread_id (manager s') = "thread_1" /\
  existsb creates_thread (console s') = false.
Proof.
  apply (startup_attaches_thread Desk.settings Desk.chat (Some "thread_1")).
  vm_compute. reflexivity.
Defined.

Lemma quit_at_first_prompt_witness :
  let s := snd (new_manager Desk.settings Desk.stale (Some "thread_1")) in
  run 1 5 s =
    Some (Returned,
          mkSession
            (mkSt (Desk.mk Sim.quiet [] (Ok "asst_1")
                     (Raise "Connection error."))
                  "thread_1" "asst_1" (Some "thread_1")
                  (trace (manager s) ++ [EvSystemMessage "Goodbye!"]))
            (console s ++
             [EvClearScreen; EvWelcome; EvDivider; EvUserInput (Ok "Exit");
              EvDivider; Core (EvSystemMessage "Goodbye!")])).
Proof.
  intros s.
  apply (quit_at_first_prompt 0 5 s "Exit"
           (Desk.mk Sim.quiet [] (Ok "asst_1") (Raise "Connection error.")));
    reflexivity.
Defined.

Lemma run_returns_or_exits_witness :
  let s := snd (new_manager Desk.settings Desk.chat (Some "thread_1")) in
  let q := snd (new_manager Desk.settings Desk.silent (Some "thread_1")) in
  let s' := match run 3 5 s with Some (_, s') => s' | None => s end in
  let q' := match run 3 5 q with Some (_, q') => q' | None => q end in
  ((consistent (manager s) -> consistent (manager s')) /\
   exists pre line,
     str_in (lower line) ["exit"; "quit"] = true /\
     console s' =
       (pre ++ [EvUserInput (Ok line); EvDivider;
                Core (EvSystemMessage "Goodbye!")])%list) /\
  (1 = 1 /\
   exists pre ev e,
     fatal_source ev e /\
     console q' =
       (pre ++ [ev; Core (EvSystemMessage ("Fatal error: " ++ e)%string)])%list).
Proof.
  intros s q s' q'. split.
  - apply (run_returns_or_exits 3 5 s Returned s'). vm_compute. reflexivity.
  - apply (run_returns_or_exits 3 5 q (SysExit 1) q'). vm_compute. reflexivity.
Defined.

